(** * News sentiment API (api.py): sentiment fusion engine

    A shallow embedding of the scoring functions of [api.py] and proofs of
    the properties its specification states about them.

    - Python [str] is a sequence of Unicode code points: [list N].
    - Python [float] is IEEE 754 binary64: the kernel's primitive [float],
      with the operations of [PrimFloat] and the specification of
      [FloatAxioms].
    - Python [int] is [Z].
    - Exceptions and the calls to the external collaborators (translation
      service, polarity classifier, summarizer, news provider) are explicit:
      a computation maps a world (module globals and the log of external
      calls) to an outcome and a new world. *)

From Stdlib Require Import ZArith NArith Bool Lia.
From Stdlib Require Import Floats.
From stdpp Require Import base option list strings gmap.

Set Warnings "-inexact-float".

(** ** Text: Python [str] *)

Module Text.

#[local] Open Scope N_scope.

(** A string is its sequence of code points. *)
Definition str : Type := list N.

Definition byte_of (a : Ascii.ascii) : N := Ascii.N_of_ascii a.

Fixpoint bytes_of (s : string) : list N :=
  match s with
  | EmptyString => []
  | String a r => byte_of a :: bytes_of r
  end.

Definition cont (b : N) : N := N.land b 0x3F.

(** UTF-8 decoding of the source file's literals (1 to 4 byte forms). *)
Fixpoint utf8_decode (fuel : nat) (bs : list N) : list N :=
  match fuel with
  | O => []
  | S fuel =>
    match bs with
    | [] => []
    | b0 :: r0 =>
      if b0 <? 0x80 then b0 :: utf8_decode fuel r0
      else if b0 <? 0xE0 then
        match r0 with
        | b1 :: r1 =>
            (N.shiftl (N.land b0 0x1F) 6 + cont b1) :: utf8_decode fuel r1
        | _ => []
        end
      else if b0 <? 0xF0 then
        match r0 with
        | b1 :: b2 :: r2 =>
            (N.shiftl (N.land b0 0x0F) 12 + N.shiftl (cont b1) 6 + cont b2)
              :: utf8_decode fuel r2
        | _ => []
        end
      else
        match r0 with
        | b1 :: b2 :: b3 :: r3 =>
            (N.shiftl (N.land b0 0x07) 18 + N.shiftl (cont b1) 12
             + N.shiftl (cont b2) 6 + cont b3) :: utf8_decode fuel r3
        | _ => []
        end
    end
  end.

(** [u "..."] is the Python literal ["..."]. *)
Definition u (s : string) : str :=
  let bs := bytes_of s in utf8_decode (length bs) bs.

(** [str.isspace] on one character: the code points CPython's
    [_PyUnicode_IsWhitespace] accepts. *)
Definition isspace (c : N) : bool :=
  ((0x09 <=? c) && (c <=? 0x0D)) || ((0x1C <=? c) && (c <=? 0x20))
  || (c =? 0x85) || (c =? 0xA0) || (c =? 0x1680)
  || ((0x2000 <=? c) && (c <=? 0x200A))
  || (c =? 0x2028) || (c =? 0x2029) || (c =? 0x202F) || (c =? 0x205F)
  || (c =? 0x3000).

Fixpoint lstrip (s : str) : str :=
  match s with
  | c :: r => if isspace c then lstrip r else s
  | [] => []
  end.

Definition rstrip (s : str) : str := rev (lstrip (rev s)).

(** [s.strip()] *)
Definition strip (s : str) : str := rstrip (lstrip s).

(** [s.split()]: the maximal runs of non-whitespace characters.
    [cur] is the run being read, reversed. *)
Fixpoint split_aux (cur : str) (s : str) : list str :=
  match s with
  | [] => match cur with [] => [] | _ => [rev cur] end
  | c :: r =>
      if isspace c
      then match cur with
           | [] => split_aux [] r
           | _ => rev cur :: split_aux [] r
           end
      else split_aux (c :: cur) r
  end.

Definition split (s : str) : list str := split_aux [] s.

Fixpoint startswith (p s : str) : bool :=
  match p, s with
  | [], _ => true
  | _ :: _, [] => false
  | a :: p', b :: s' => (a =? b) && startswith p' s'
  end.

(** [p in s]: [p] occurs in [s] as a contiguous run. *)
Fixpoint contains (p s : str) : bool :=
  startswith p s ||
  match s with
  | [] => false
  | _ :: s' => contains p s'
  end.

(** [s[:n]] for [n >= 0]. *)
Definition prefix (n : nat) (s : str) : str := take n s.

(** [bool(s)] *)
Definition truthy (s : str) : bool :=
  match s with [] => false | _ => true end.

Definition str_eqb (a b : str) : bool := bool_decide (a = b).

(** [sep.join(parts)] *)
Fixpoint join (sep : str) (parts : list str) : str :=
  match parts with
  | [] => []
  | [p] => p
  | p :: rest => p ++ sep ++ join sep rest
  end.

(** The case table of ASCII: agrees with [str.lower] on every string
    whose cased characters are ASCII letters (Hangul has no case). *)
Definition ascii_lower (s : str) : str :=
  map (fun c => if (0x41 <=? c) && (c <=? 0x5A) then c + 0x20 else c) s.

(** [p] occurs in [s] as a contiguous run. *)
Definition occurs_in (p s : str) : Prop := exists a b, s = a ++ p ++ b.

(** A string that does not start with whitespace. *)
Definition clean_head (s : str) : Prop :=
  match s with
  | [] => True
  | c :: _ => isspace c = false
  end.

End Text.
Export Text.

(** ** Numbers: Python [float] and [int] *)

Module PyFloat.

#[local] Open Scope Z_scope.

(** [float(z)]: the binary64 value nearest to the integer [z]. *)
Definition float_of_int (z : Z) : float :=
  SF2Prim (binary_normalize prec emax z 0 false).

(** [min(a, b)] and [max(a, b)] of the builtins: the first argument is kept
    unless the second compares strictly below (above) it. *)
Definition py_min (a b : float) : float := if (b <? a)%float then b else a.
Definition py_max (a b : float) : float := if (a <? b)%float then b else a.

(** [max(-1.0, min(1.0, x))] *)
Definition clamp (x : float) : float := py_max (-1)%float (py_min 1%float x).

(** Nearest integer to [num / den], ties to even ([0 <= num], [0 < den]). *)
Definition round_half_even (num den : Z) : Z :=
  let q := num / den in
  let r := num mod den in
  match (2 * r ?= den) with
  | Lt => q
  | Gt => q + 1
  | Eq => if Z.even q then q else q + 1
  end.

(** Nearest integer, ties to even, to [m * 2^e * 10^k]: the digits that
    correctly rounded conversion to [k] decimals produces. *)
Definition scaled_decimal (k : Z) (m : positive) (e : Z) : Z :=
  if 0 <=? e then Z.pos m * 2 ^ e * 10 ^ k
  else round_half_even (Z.pos m * 10 ^ k) (2 ^ (- e)).

(** The binary64 value nearest to [(-1)^s * n / 10^k]. *)
Definition decimal_to_binary (s : bool) (n : Z) (k : Z) : spec_float :=
  match n with
  | Z.pos p => SFdiv prec emax (S754_finite s p 0)
                 (S754_finite false (Z.to_pos (10 ^ k)) 0)
  | _ => S754_zero s
  end.

(** [round(x, ndigits)] for [0 <= ndigits]: the float nearest to the
    decimal with [ndigits] fractional digits nearest to [x]; zeros,
    infinities and nan round to themselves. *)
Definition py_round (x : float) (ndigits : Z) : float :=
  match Prim2SF x with
  | S754_finite s m e =>
      SF2Prim (decimal_to_binary s (scaled_decimal ndigits m e) ndigits)
  | _ => x
  end.

Definition digit_char (d : Z) : N := (0x30 + Z.to_N d)%N.

(** Decimal digits of [n >= 0], least significant first. *)
Fixpoint digits_rev (fuel : nat) (n : Z) : list N :=
  match fuel with
  | O => []
  | S fuel =>
      if n <? 10 then [digit_char n]
      else digit_char (n mod 10) :: digits_rev fuel (n / 10)
  end.

(** [str(n)] for [n >= 0]. *)
Definition decimal (n : Z) : str :=
  rev (digits_rev (S (Z.to_nat (Z.log2 n))) n).

(** The fixed-point rendering of [n / 10^k], [k] fractional digits. *)
Definition fixed_digits (n : Z) (k : Z) : str :=
  let ip := decimal (n / 10 ^ k) in
  if k =? 0 then ip
  else
    let fp := decimal (n mod 10 ^ k) in
    ip ++ [0x2E%N] ++ replicate (Z.to_nat k - length fp) 0x30%N ++ fp.

Definition sign_str (s : bool) : str := if s then [0x2D%N] else [].

(** [f"{x:.kf}"] *)
Definition format_f (k : Z) (x : float) : str :=
  match Prim2SF x with
  | S754_zero s => sign_str s ++ fixed_digits 0 k
  | S754_infinity s => sign_str s ++ u "inf"
  | S754_nan => u "nan"
  | S754_finite s m e => sign_str s ++ fixed_digits (scaled_decimal k m e) k
  end.

(** A float in [[-1, 1]], in the float order. *)
Definition in_unit (x : float) : Prop :=
  (-1 <=? x)%float = true /\ (x <=? 1)%float = true.


End PyFloat.
Export PyFloat.

(** ** Exceptions, the world, and computations *)

Module Runtime.

(** Exceptions, all instances of Python's [Exception]. *)
Inductive exn : Type :=
| Exception (msg : str)
| ValueError (msg : str)
| AttributeError (msg : str)
| ValidationError (msg : str)
| UnicodeEncodeError (msg : str)
| HTTPException (status_code : Z) (detail : str).

(** [str(e)] *)
Definition exn_str (e : exn) : str :=
  match e with
  | Exception m | ValueError m | AttributeError m | ValidationError m
  | UnicodeEncodeError m => m
  | HTTPException c d => decimal c ++ u ": " ++ d
  end.

Inductive outcome (A : Type) : Type :=
| Return (a : A)
| Raise (e : exn).
Arguments Return {A} a.
Arguments Raise {A} e.

(** The module-level objects of [api.py]. *)
Record globals : Type := Globals {
  g_EN_POSITIVE : gset str;
  g_EN_NEGATIVE : gset str;
  g_KO_POSITIVE : list str;
  g_KO_NEGATIVE : list str;
  g_SUMY_LANG_MAP : gmap str str
}.

(** Calls that leave the process. *)
Inductive call : Type :=
| CallTranslate (text : str)
| CallTextBlob (text : str)
| CallSumy (lang text : str) (sentence_count : Z)
| CallNewsAPI (api_key query language : str) (page_size : Z).

Record world : Type := World {
  w_globals : globals;
  w_calls : list call          (* most recent first *)
}.

(** A computation: the outcome and the world it leaves. What [print]
    writes to standard output is not part of the world; that [print] can
    raise is part of the outcome. *)
Definition py (A : Type) : Type := world -> outcome A * world.

#[export] Instance py_ret : MRet py := fun A a w => (Return a, w).

#[export] Instance py_bind : MBind py := fun A B f m w =>
  match m w with
  | (Return a, w') => f a w'
  | (Raise e, w') => (Raise e, w')
  end.

Definition raise {A} (e : exn) : py A := fun w => (Raise e, w).

(** [try: body  except Exception as e: handler(e)] *)
Definition try_except {A} (body : py A) (handler : exn -> py A) : py A :=
  fun w =>
    match body w with
    | (Return a, w') => (Return a, w')
    | (Raise e, w') => handler e w'
    end.

(** Read a module-level object. *)
Definition global {A} (f : globals -> A) : py A :=
  fun w => (Return (f (w_globals w)), w).

(** Call a collaborator: the call is logged, its outcome is the
    computation's. *)
Definition external {A} (c : call) (r : outcome A) : py A :=
  fun w => (r, World (w_globals w) (c :: w_calls w)).

(** The world after one more call. *)
Definition logged (c : call) (w : world) : world :=
  World (w_globals w) (c :: w_calls w).

(** A computation that leaves the module globals as it found them. *)
Definition preserves {A} (m : py A) : Prop :=
  forall w, w_globals (m w).2 = w_globals w.

(** A computation that reads the globals only: its outcome and the calls it
    adds do not depend on the calls made before, and it keeps the
    globals. *)
Definition steady {A} (m : py A) : Prop :=
  forall g, exists o new, forall c, m (World g c) = (o, World g (new ++ c)).

End Runtime.
Export Runtime.

(** ** The collaborators of [api.py] *)

(** A field of a JSON object of the news provider. *)
Inductive field : Type :=
| Missing
| Null
| Str (s : str).

Inductive source_field : Type :=
| SourceMissing
| SourceNull
| SourceObj (name : field).

(** One element of the provider's ["articles"]. *)
Record raw_article : Type := RawArticle {
  a_title : field;
  a_description : field;
  a_content : field;
  a_url : field;
  a_source : source_field;
  a_publishedAt : field;
  a_urlToImage : field
}.

(** The provider's JSON answer. *)
Record provider_json : Type := ProviderJson {
  j_status : field;
  j_message : field;
  j_articles : option (list raw_article)
}.

(** What [api.py] imports and calls but does not define. *)
Class Collaborators : Type := {
  (** [str.lower]: Unicode's case table. *)
  lower : str -> str;
  (** [GoogleTranslator(source="auto", target="en").translate(text)] *)
  GoogleTranslator_translate : str -> outcome (option str);
  (** [TextBlob(text).sentiment.polarity] *)
  TextBlob_polarity : str -> outcome float;
  (** sumy's LSA summarizer for a language, a text and a sentence count:
      the selected sentences, rendered. *)
  LsaSummarizer_run : str -> str -> Z -> outcome (list str);
  (** [requests.get(url, params, ...)], [raise_for_status], [json()] *)
  requests_get_json : str -> str -> str -> Z -> outcome provider_json;
  (** pydantic's message for a field that is [None] but declared [str]. *)
  pydantic_message : string -> str;
  (** [print(line)] on [sys.stdout]: [None] when the line is written,
      [Some m] when the codec of standard output cannot encode the line and
      [print] raises [UnicodeEncodeError] with message [m]. *)
  print_error : str -> option str
}.

(** ** Module-level data of [api.py] *)

Definition EN_POSITIVE_literal : list str := map u [
  "good"; "great"; "best"; "win"; "success"; "grow"; "surge"; "boost";
  "rise"; "gain"; "profit"; "record"; "breakthrough"; "improve"; "love";
  "happy"; "excellent"; "strong"; "launch"; "innovation"; "support";
  "recover"; "positive"; "hope"; "top"; "high"; "lead"; "award";
  "joy"; "wonderful"; "fantastic"; "amazing"; "delight"; "pleasure";
  "beautiful"; "brilliant"; "awesome"; "celebrate"; "glad"; "cheerful";
  "excited"; "thrilled"; "optimistic"; "proud"; "grateful"; "fortunate";
  "happiness"; "satisfaction"; "impressive"; "remarkable"; "outstanding"
]%string.

Definition EN_NEGATIVE_literal : list str := map u [
  "bad"; "worst"; "fail"; "loss"; "crash"; "fall"; "drop"; "kill";
  "death"; "war"; "attack"; "crisis"; "fear"; "threat"; "decline";
  "down"; "cut"; "fire"; "fraud"; "scandal"; "risk"; "danger";
  "collapse"; "destroy"; "bomb"; "terror"; "recession"; "layoff";
  "victim"; "suffer"; "wrong"; "debt"; "bankrupt"; "negative";
  "sad"; "terrible"; "horrible"; "awful"; "pain"; "grief"; "angry";
  "hate"; "misery"; "sorrow"; "tragedy"; "disaster"; "despair";
  "worried"; "disappointed"; "frustrated"; "alarming"; "devastating";
  "sadness"; "anxiety"; "depression"; "loneliness"; "regret"
]%string.

(** [EN_POSITIVE] and [EN_NEGATIVE] are Python sets. *)
Definition EN_POSITIVE : gset str := list_to_set EN_POSITIVE_literal.
Definition EN_NEGATIVE : gset str := list_to_set EN_NEGATIVE_literal.

Definition KO_POSITIVE : list str := map u [
  "기쁨"; "기쁘"; "행복"; "사랑"; "좋다"; "좋은"; "좋아"; "훌륭"; "멋진"; "멋지";
  "최고"; "성공"; "감사"; "즐거"; "즐겁"; "축하"; "승리"; "희망"; "응원"; "대박";
  "우수"; "탁월"; "긍정"; "만족"; "환영"; "감동"; "뿌듯"; "자랑"; "신나"; "신난";
  "웃음"; "환호"; "찬사"; "보람"; "설레"; "기대"; "잘했"; "잘한"; "최선"; "발전";
  "상승"; "호조"; "흑자"; "이익"; "수익"; "경사"; "복"; "건강"; "평화"; "화합"
]%string.

Definition KO_NEGATIVE : list str := map u [
  "슬픔"; "슬프"; "분노"; "실패"; "나쁘"; "나쁜"; "최악"; "위기"; "전쟁"; "사망";
  "죽음"; "죽었"; "공포"; "불안"; "걱정"; "고통"; "절망"; "비극"; "재난"; "파괴";
  "손실"; "하락"; "폭락"; "침체"; "부정"; "혐오"; "증오"; "괴로"; "눈물"; "후회";
  "실망"; "패배"; "좌절"; "두려"; "우울"; "외로"; "고독"; "원망"; "적자"; "파산";
  "해고"; "사고"; "피해"; "위험"; "폭력"; "범죄"; "테러"; "빚"; "부채"; "탄핵"
]%string.

Definition SUMY_LANG_MAP : gmap str str :=
  list_to_map [
    (u "en", u "english"); (u "ko", u "english"); (u "ja", u "japanese");
    (u "de", u "german"); (u "fr", u "french"); (u "es", u "spanish")
  ].

(** The globals as the module body leaves them. *)
Definition module_globals : globals := {|
  g_EN_POSITIVE := EN_POSITIVE;
  g_EN_NEGATIVE := EN_NEGATIVE;
  g_KO_POSITIVE := KO_POSITIVE;
  g_KO_NEGATIVE := KO_NEGATIVE;
  g_SUMY_LANG_MAP := SUMY_LANG_MAP
|}.

Definition initial_world : world := World module_globals [].

(** ** The pydantic models *)

Record SentimentResult : Type := mkSentimentResult {
  label : str;
  polarity : float;
  analyzed_text : str;
  method : str
}.

Record ArticleResult : Type := mkArticleResult {
  title : str;
  description : str;
  content : str;
  url : str;
  source : str;
  published : str;
  image_url : option str;
  sentiment : SentimentResult;
  summary : str
}.

Record NewsResponse : Type := mkNewsResponse {
  total : Z;
  sentiment_summary : gmap str Z;
  articles : list ArticleResult
}.

(** The three label constants of [_analyze_sentiment] and [get_news]. *)
Definition POSITIVE : str := u "Positive 😊".
Definition NEUTRAL : str := u "Neutral 😐".
Definition NEGATIVE : str := u "Negative 😟".

(** ** The functions of [api.py] *)

Section Api.

Context {C : Collaborators}.

#[local] Open Scope Z_scope.

(** [sum(xs)] *)
Definition py_sum (xs : list Z) : Z := fold_left Z.add xs 0.

(** [_is_korean]: the loop returns at the first Hangul character. *)
Fixpoint _is_korean (text : str) : bool :=
  match text with
  | [] => false
  | ch :: rest =>
      if ((0xAC00 <=? ch)%N && (ch <=? 0xD7A3)%N)
         || ((0x3131 <=? ch)%N && (ch <=? 0x3163)%N)
      then true
      else _is_korean rest
  end.

(** [sum(1 for w in lexicon if w in text)] *)
Definition count_matches (lexicon : list str) (text : str) : Z :=
  py_sum (map (fun _ => 1) (List.filter (fun w => contains w text) lexicon)).

(** [_ko_sentiment_score] *)
Definition _ko_sentiment_score (text : str) : py (float * Z * Z) :=
  ko_positive ← global g_KO_POSITIVE;
  ko_negative ← global g_KO_NEGATIVE;
  let pos := count_matches ko_positive text in
  let neg := count_matches ko_negative text in
  let score := (float_of_int (pos - neg) * 0.25)%float in
  mret (py_max (-1)%float (py_min 1%float score), pos, neg).

(** The test of line 168 on a translator's answer. *)
Definition usable_translation (result : option str) (text : str) : bool :=
  match result with
  | None => false
  | Some r =>
      truthy r && truthy (strip r)
      && negb (str_eqb (lower (strip r)) (lower (strip text)))
  end.

(** [print(line)] *)
Definition print (line : str) : py unit :=
  fun w => (match print_error line with
            | None => Return tt
            | Some m => Raise (UnicodeEncodeError m)
            end, w).

(** [f"{b}"] for a bool. *)
Definition bool_str (b : bool) : str := if b then u "True" else u "False".

(** The line printed at line 172. *)
Definition log_translation_failed (e : exn) : str :=
  u "[번역 실패] " ++ exn_str e.

(** The line printed at line 199. *)
Definition log_ko (text : str) (ko_pos ko_neg : Z) (ko_score : float) : str :=
  u "[1-KO사전] '" ++ text ++ u "' → 긍정=" ++ decimal ko_pos
    ++ u ", 부정=" ++ decimal ko_neg ++ u ", 점수=" ++ format_f 2 ko_score.

(** The line printed at line 209. *)
Definition log_translation (text en_text : str) (translated : bool) : str :=
  u "[2-번역] '" ++ text ++ u "' → '" ++ en_text ++ u "' (성공="
    ++ bool_str translated ++ u ")".

(** The line printed at line 218. *)
Definition log_textblob (tb_polarity : float) (en_pos en_neg : Z)
    (en_boost : float) : str :=
  u "[2-TextBlob] pol=" ++ format_f 4 tb_polarity ++ u ", EN(+"
    ++ decimal en_pos ++ u "/-" ++ decimal en_neg ++ u "), boost="
    ++ format_f 2 en_boost.

(** The line printed at line 232. *)
Definition log_final (text : str) (final : float) (method_used : str) : str :=
  u "[최종] '" ++ text ++ u "' → " ++ format_f 4 final ++ u " ("
    ++ method_used ++ u ")".

(** [_translate_to_english]: the handler prints before it returns. *)
Definition _translate_to_english (text : str) : py (str * bool) :=
  try_except
    (result ← external (CallTranslate text) (GoogleTranslator_translate text);
     if usable_translation result text
     then mret (strip (default [] result), true)
     else mret (text, false))
    (fun e => _ ← print (log_translation_failed e); mret (text, false)).

Definition invalid_markers : list str :=
  [u "[removed]"; u "[Removed]"; u "(제목 없음)"].

(** [_is_valid_text] *)
Definition _is_valid_text (text : str) : bool :=
  if negb (truthy text) || negb (truthy (strip text)) then false
  else negb (existsb (fun m => contains m text) invalid_markers).

(** The keyword bonus of lines 214-217. *)
Definition en_keyword_boost (g : globals) (en_text : str) : float * Z * Z :=
  let words : gset str := list_to_set (split (lower en_text)) in
  let en_pos := Z.of_nat (size (words ∩ g_EN_POSITIVE g)) in
  let en_neg := Z.of_nat (size (words ∩ g_EN_NEGATIVE g)) in
  ((float_of_int (en_pos - en_neg) * 0.15)%float, en_pos, en_neg).

(** The three-way choice of lines 221-229: [final] and [method_used]. *)
Definition fuse (is_ko translated : bool)
    (ko_score tb_polarity en_boost : float) : float * str :=
  if is_ko && translated then
    ((ko_score * 0.4 + tb_polarity * 0.3 + en_boost * 0.3)%float,
     u "KO사전(" ++ format_f 2 ko_score ++ u ")+번역TextBlob("
       ++ format_f 2 tb_polarity ++ u ")+EN키워드(" ++ format_f 2 en_boost
       ++ u ")")
  else if is_ko && negb translated then
    (ko_score, u "KO사전 only(" ++ format_f 2 ko_score ++ u ")")
  else
    ((tb_polarity * 0.6 + en_boost * 0.4)%float,
     u "TextBlob(" ++ format_f 2 tb_polarity ++ u ")+EN키워드("
       ++ format_f 2 en_boost ++ u ")").

(** The thresholds of lines 234-239. *)
Definition label_of (final : float) : str :=
  if (0.03 <? final)%float then POSITIVE
  else if (final <? -0.03)%float then NEGATIVE
  else NEUTRAL.

(** The local variables of [_analyze_sentiment] when it reaches its last
    line; [fused] is [final] as line 229 leaves it, [final] as line 231
    does. *)
Record locals : Type := mkLocals {
  is_ko : bool;
  ko_score : float;
  ko_pos : Z;
  ko_neg : Z;
  en_text : str;
  translated : bool;
  tb_polarity : float;
  en_boost : float;
  fused : float;
  method_used : str;
  final : float;
  display_text : str
}.

(** Step 1 (lines 195-199): the score of the Korean lexicon, and its
    progress line. *)
Definition ko_stage (text : str) (is_ko : bool) : py (float * Z * Z) :=
  if is_ko
  then
    r ← _ko_sentiment_score text;
    _ ← print (log_ko text r.1.2 r.2 r.1.1);
    mret r
  else mret (0%float, 0, 0).

(** Step 2, translation (lines 202-209). *)
Definition translation_stage (text language : str) (is_ko : bool)
    : py (str * bool) :=
  if is_ko || negb (str_eqb language (u "en"))
  then
    r ← _translate_to_english text;
    _ ← print (log_translation text r.1 r.2);
    mret r
  else mret (text, false).

(** Step 2, the English signal (lines 211-218): the classifier, the keyword
    bonus, and their progress line. *)
Definition english_stage (en_text : str) (is_ko translated : bool)
    : py (float * float) :=
  if translated || negb is_ko
  then
    tb_polarity ← external (CallTextBlob en_text) (TextBlob_polarity en_text);
    g ← global id;
    let kb := en_keyword_boost g en_text in
    _ ← print (log_textblob tb_polarity kb.1.2 kb.2 kb.1.1);
    mret (tb_polarity, kb.1.1)
  else mret (0%float, 0%float).

(** Lines 192-241 of [_analyze_sentiment]. *)
Definition analyze_body (text language : str) : py locals :=
  let is_ko := _is_korean text in
  '(ko_score, ko_pos, ko_neg) ← ko_stage text is_ko;
  '(en_text, translated) ← translation_stage text language is_ko;
  '(tb_polarity, en_boost) ← english_stage en_text is_ko translated;
  let '(fused, method_used) :=
    fuse is_ko translated ko_score tb_polarity en_boost in
  let final := py_max (-1)%float (py_min 1%float fused) in
  _ ← print (log_final text final method_used);
  let display_text := if translated then en_text else text in
  mret (mkLocals is_ko ko_score ko_pos ko_neg en_text translated
          tb_polarity en_boost fused method_used final display_text).

(** The value line 242 returns. *)
Definition result_of (l : locals) : SentimentResult :=
  mkSentimentResult (label_of (final l)) (py_round (final l) 4)
    (prefix 100 (display_text l)) (method_used l).

(** The value line 190 returns. *)
Definition invalid_result : SentimentResult :=
  mkSentimentResult NEUTRAL 0%float (u "(분석 불가)") (u "none").

(** [_analyze_sentiment] *)
Definition _analyze_sentiment (text language : str) : py SentimentResult :=
  if negb (_is_valid_text text) then mret invalid_result
  else l ← analyze_body text language; mret (result_of l).

(** [_summarize_text] *)
Definition _summarize_text (text : str) (sentence_count : Z) (lang : str)
    : py str :=
  if negb (truthy text) || (Z.of_nat (length (split text)) <? 10)
  then mret (if truthy text then text else u "(본문 없음)")
  else
    langs ← global g_SUMY_LANG_MAP;
    let sumy_lang := default (u "english") (langs !! lang) in
    try_except
      (summary ← external (CallSumy sumy_lang text sentence_count)
                   (LsaSummarizer_run sumy_lang text sentence_count);
       let joined := join (u " ") summary in
       mret (if truthy joined then joined else u "(요약 생성 실패)"))
      (fun e => mret (u "(요약 중 오류: " ++ exn_str e ++ u ")")).

(** [value == s] for the value of a JSON field. *)
Definition field_is (f : field) (s : str) : bool :=
  match f with Str v => str_eqb v s | _ => false end.

(** [_fetch_news] *)
Definition _fetch_news (api_key query language : str) (page_size : Z)
    : py (list raw_article) :=
  data ← external (CallNewsAPI api_key query language page_size)
           (requests_get_json api_key query language page_size);
  if negb (field_is (j_status data) (u "ok"))
  then raise (ValueError match j_message data with
                         | Missing => u "알 수 없는 오류"
                         | Null => u "None"
                         | Str m => m
                         end)
  else mret (default [] (j_articles data)).

(** [d.get(key)]: [None] for a missing key and for a null. *)
Definition get (f : field) : option str :=
  match f with Str s => Some s | _ => None end.

(** [x or y] on an optional string. *)
Definition or_else (x : option str) (y : str) : str :=
  match x with
  | Some s => if truthy s then s else y
  | None => y
  end.

(** [counts[key] = counts.get(key, 0) + 1] *)
Definition bump (key : str) (counts : gmap str Z) : gmap str Z :=
  <[key := default 0 (counts !! key) + 1]> counts.

(** One iteration of the loop of [get_news] (lines 303-316). *)
Definition get_news_step (language : str) (summary_sentences : Z)
    (a : raw_article) (counts : gmap str Z) (results : list ArticleResult)
    : py (gmap str Z * list ArticleResult) :=
  let title := or_else (get (a_title a)) (u "(제목 없음)") in
  let desc := or_else (get (a_description a)) [] in
  let content := or_else (get (a_content a)) desc in
  let analysis :=
    title ++ (if truthy desc && _is_valid_text desc
              then u ". " ++ desc else []) in
  sent ← _analyze_sentiment analysis language;
  let counts := bump (label sent) counts in
  let url := match a_url a with
             | Missing => Some (u "#")
             | Null => None
             | Str s => Some s
             end in
  source ← match a_source a with
           | SourceMissing => mret (Some (u ""))
           | SourceNull =>
               raise (AttributeError
                        (u "'NoneType' object has no attribute 'get'"))
           | SourceObj Missing => mret (Some (u ""))
           | SourceObj Null => mret None
           | SourceObj (Str s) => mret (Some s)
           end;
  let published := prefix 10 (or_else (get (a_publishedAt a)) []) in
  let image_url := get (a_urlToImage a) in
  summary ← _summarize_text content summary_sentences language;
  match url, source with
  | Some url, Some source =>
      mret (counts,
            results ++ [mkArticleResult title desc content url source
                          published image_url sent summary])
  | None, _ => raise (ValidationError (pydantic_message "url"))
  | _, None => raise (ValidationError (pydantic_message "source"))
  end.

(** [for a in raw: ...] *)
Fixpoint get_news_loop (language : str) (summary_sentences : Z)
    (raw : list raw_article) (counts : gmap str Z)
    (results : list ArticleResult)
    : py (gmap str Z * list ArticleResult) :=
  match raw with
  | [] => mret (counts, results)
  | a :: rest =>
      '(counts, results) ←
        get_news_step language summary_sentences a counts results;
      get_news_loop language summary_sentences rest counts results
  end.

(** The dict literal of line 299. *)
Definition initial_counts : gmap str Z :=
  <[NEGATIVE := 0]> (<[NEUTRAL := 0]> (<[POSITIVE := 0]> ∅)).

(** [get_news] *)
Definition get_news (api_key query language : str)
    (page_size summary_sentences : Z) : py NewsResponse :=
  raw ← try_except (_fetch_news api_key query language page_size)
          (fun e => raise (HTTPException 502
                             (u "뉴스 가져오기 실패: " ++ exn_str e)));
  match raw with
  | [] => mret (mkNewsResponse 0 ∅ [])
  | _ =>
      '(counts, results) ←
        get_news_loop language summary_sentences raw initial_counts [];
      mret (mkNewsResponse (Z.of_nat (length results)) counts results)
  end.

(** [sentiment] (POST /sentiment) *)
Definition sentiment_endpoint (text language : str) : py SentimentResult :=
  if negb (truthy (strip text))
  then raise (HTTPException 400 (u "텍스트가 비어 있습니다."))
  else _analyze_sentiment text language.

(** [summarize] (POST /summarize) *)
Definition summarize_endpoint (text : str) (sentence_count : Z)
    (language : str) : py str :=
  if negb (truthy (strip text))
  then raise (HTTPException 400 (u "텍스트가 비어 있습니다."))
  else _summarize_text text sentence_count language.

(** The requests the application serves. *)
Inductive request : Type :=
| GetNews (api_key query language : str) (page_size summary_sentences : Z)
| PostSentiment (text language : str)
| PostSummarize (text : str) (sentence_count : Z) (language : str)
| GetHealth.

Inductive response : Type :=
| NewsBody (r : NewsResponse)
| SentimentBody (r : SentimentResult)
| SummaryBody (summary : str)
| HealthBody (status version : str).

Definition serve (r : request) : py response :=
  match r with
  | GetNews k q l n s => r ← get_news k q l n s; mret (NewsBody r)
  | PostSentiment t l => r ← sentiment_endpoint t l; mret (SentimentBody r)
  | PostSummarize t n l =>
      r ← summarize_endpoint t n l; mret (SummaryBody r)
  | GetHealth => mret (HealthBody (u "ok") (u "1.4.0"))
  end.

(** The pair [_translate_to_english] returns, when it returns. *)
Definition translation_of (text : str) : str * bool :=
  match GoogleTranslator_translate text with
  | Return r =>
      if usable_translation r text then (strip (default [] r), true)
      else (text, false)
  | Raise _ => (text, false)
  end.

(** The test of line 207. *)
Definition attempted (text language : str) : bool :=
  _is_korean text || negb (str_eqb language (u "en")).

(** The lines an analysis of [text] can print: the failure of its
    translation, and the four progress lines with the text, its translation
    and any numbers. *)
Definition progress_line (text line : str) : Prop :=
  (exists e, GoogleTranslator_translate text = Raise e
             /\ line = log_translation_failed e)
  \/ (exists pos neg score, line = log_ko text pos neg score)
  \/ line = log_translation text (translation_of text).1 (translation_of text).2
  \/ (exists tb pos neg boost, line = log_textblob tb pos neg boost)
  \/ (exists k t a b c final, line = log_final text final (fuse k t a b c).2).

(** Standard output takes every line an analysis of [text] can print. *)
Definition stdout_accepts (text : str) : Prop :=
  forall line, progress_line text line -> print_error line = None.

End Api.

(** ** Vocabulary of the statements *)

(** The three labels, as a set. *)
Definition LABELS : gset str := {[POSITIVE; NEUTRAL; NEGATIVE]}.

(** How many of the articles carry the label. *)
Definition labelled (L : str) (results : list ArticleResult) : Z :=
  Z.of_nat (length (filter (fun a => label (sentiment a) = L) results)).

(** The histogram agrees with the articles analysed so far. *)
Definition histogram_of (counts : gmap str Z) (results : list ArticleResult)
    : Prop :=
  dom counts = LABELS
  /\ (forall L, L ∈ LABELS -> counts !! L = Some (labelled L results))
  /\ Forall (fun a => label (sentiment a) ∈ LABELS) results.

(** ** Collaborators for the examples *)

(** A lone surrogate: the characters UTF-8 does not encode. *)
Definition surrogate (c : N) : bool := (0xD800 <=? c)%N && (c <=? 0xDFFF)%N.

Fixpoint first_surrogate (i : Z) (s : str) : option (Z * N) :=
  match s with
  | [] => None
  | c :: rest =>
      if surrogate c then Some (i, c) else first_surrogate (i + 1)%Z rest
  end.

Definition hex_digit (d : N) : N :=
  if (d <? 10)%N then (0x30 + d)%N else (0x61 + (d - 10))%N.

(** The four hexadecimal digits of a character of the basic plane. *)
Definition hex4 (c : N) : str :=
  [hex_digit (c / 4096); hex_digit ((c / 256) mod 16);
   hex_digit ((c / 16) mod 16); hex_digit (c mod 16)]%N.

(** [print] on a UTF-8 standard output with strict errors. *)
Definition utf8_print_error (line : str) : option str :=
  match first_surrogate 0 line with
  | None => None
  | Some (i, c) =>
      Some (u "'utf-8' codec can't encode character '\u" ++ hex4 c
              ++ u "' in position " ++ decimal i
              ++ u ": surrogates not allowed")
  end.

Definition demo_articles : list raw_article := [
  RawArticle (Str (u "Record profits celebrated")) (Str (u "Shares surged"))
    Null (Str (u "https://example.org/a")) (SourceObj (Str (u "Wire")))
    (Str (u "2024-05-01T10:00:00Z")) Null;
  RawArticle (Str (u "Market crash deepens crisis")) Null
    (Str (u "Collapse and bankruptcy")) Missing SourceMissing Missing Missing
].

(** Collaborators that answer: the translator says "joy", the classifier
    separates two kinds of text. *)
Definition demo : Collaborators := {|
  lower := ascii_lower;
  GoogleTranslator_translate := fun _ => Return (Some (u "joy"));
  TextBlob_polarity := fun t =>
    Return (if contains (u "crash") t then (-0.7)%float else 0.8%float);
  LsaSummarizer_run := fun _ t _ => Return [t];
  requests_get_json := fun _ _ _ _ =>
    Return (ProviderJson (Str (u "ok")) Missing (Some demo_articles));
  pydantic_message := fun _ => u "Input should be a valid string";
  print_error := utf8_print_error
|}.

(** Collaborators that fail: both services raise. *)
Definition failing : Collaborators := {|
  lower := ascii_lower;
  GoogleTranslator_translate := fun _ => Raise (Exception (u "timed out"));
  TextBlob_polarity := fun _ => Raise (Exception (u "corpus missing"));
  LsaSummarizer_run := fun _ _ _ => Raise (Exception (u "no tokenizer"));
  requests_get_json := fun _ _ _ _ => Raise (Exception (u "offline"));
  pydantic_message := fun _ => u "Input should be a valid string";
  print_error := utf8_print_error
|}.

(** ** Vocabulary of the further properties *)

(** What [_ko_sentiment_score] returns for one difference of the counts. *)
Definition ko_score_check (d : Z) : bool :=
  let raw := (float_of_int d * 0.25)%float in
  let s := clamp raw in
  (if (4 <=? d)%Z then PrimFloat.Leibniz.eqb s 1%float
   else if (d <=? -4)%Z then PrimFloat.Leibniz.eqb s (-1)%float
   else PrimFloat.Leibniz.eqb s raw)
  && Bool.eqb (0 <? s)%float (0 <? d)%Z
  && Bool.eqb (s <? 0)%float (d <? 0)%Z.

(** The nearest float to [(-1)^s * n / 10^4], against the two thresholds:
    outside the band from 300 up, inside it up to 300. *)
Definition band_check (s : bool) (n : nat) : bool :=
  let y := SF2Prim (decimal_to_binary s (Z.of_nat n) 4) in
  (if (300 <=? n)%nat
   then (if s then (y <=? -0.03)%float else (0.03 <=? y)%float)
   else true)
  && (if (n <=? 300)%nat
      then ((-0.03 <=? y)%float && (y <=? 0.03)%float)
      else true).

(** The text [get_news] analyses for an article of this title and
    description (line 306). *)
Definition analysis_text (title desc : str) : str :=
  title ++ (if truthy desc && _is_valid_text desc then u ". " ++ desc else []).

(** [art] is what [get_news], started in the world [w], makes of the
    provider's article [a]: its sentiment is the result of
    [_analyze_sentiment] and its summary the result of [_summarize_text]
    on the article's texts, with the globals of [w]. *)
Definition built_from `{C : Collaborators} (w : world) (language : str)
    (n : Z) (a : raw_article) (art : ArticleResult) : Prop :=
  title art = or_else (get (a_title a)) (u "(제목 없음)")
  /\ description art = or_else (get (a_description a)) []
  /\ content art = or_else (get (a_content a)) (description art)
  /\ Some (url art) = match a_url a with
                      | Missing => Some (u "#")
                      | Null => None
                      | Str s => Some s
                      end
  /\ Some (source art) = match a_source a with
                         | SourceMissing | SourceObj Missing => Some []
                         | SourceObj (Str s) => Some s
                         | SourceNull | SourceObj Null => None
                         end
  /\ published art = prefix 10 (or_else (get (a_publishedAt a)) [])
  /\ image_url art = get (a_urlToImage a)
  /\ (_analyze_sentiment (analysis_text (title art) (description art))
        language w).1 = Return (sentiment art)
  /\ (_summarize_text (content art) n language w).1 = Return (summary art).

Definition untitled_json : provider_json :=
  ProviderJson (Str (u "ok")) Missing
    (Some [RawArticle Null (Str (u "Record profits celebrated")) Null
             (Str (u "https://example.org/a")) SourceMissing Missing Missing]).

(** Collaborators whose provider sends one article without a title. *)
Definition untitled : Collaborators := {|
  lower := ascii_lower;
  GoogleTranslator_translate := fun _ => Return None;
  TextBlob_polarity := fun _ => Return 0.8%float;
  LsaSummarizer_run := fun _ t _ => Return [t];
  requests_get_json := fun _ _ _ _ => Return untitled_json;
  pydantic_message := fun _ => u "Input should be a valid string";
  print_error := utf8_print_error
|}.

(** Collaborators whose translator fails the way deep_translator does, with
    the text in the message of its exception. *)
Definition echoing : Collaborators := {|
  lower := ascii_lower;
  GoogleTranslator_translate := fun t =>
    Raise (Exception
             (t ++ u " --> No translation was found using the current translator. Try another translator?"));
  TextBlob_polarity := fun _ => Return 0.8%float;
  LsaSummarizer_run := fun _ t _ => Return [t];
  requests_get_json := fun _ _ _ _ =>
    Return (ProviderJson (Str (u "ok")) Missing (Some []));
  pydantic_message := fun _ => u "Input should be a valid string";
  print_error := utf8_print_error
|}.

(** Collaborators whose provider refuses the key. *)
Definition rejecting : Collaborators := {|
  lower := ascii_lower;
  GoogleTranslator_translate := fun _ => Return None;
  TextBlob_polarity := fun _ => Return 0%float;
  LsaSummarizer_run := fun _ t _ => Return [t];
  requests_get_json := fun _ _ _ _ =>
    Return (ProviderJson (Str (u "error")) (Str (u "apiKeyInvalid")) None);
  pydantic_message := fun _ => u "Input should be a valid string";
  print_error := utf8_print_error
|}.

(** * Proofs *)

Ltac py_unfold :=
  unfold mbind, py_bind, mret, py_ret, raise, try_except, global, external in *.

Create HintDb preserves.

Module FloatFacts.

#[local] Open Scope Z_scope.

Lemma Prim2SF_one : Prim2SF 1%float = S754_finite false 4503599627370496 (-52).
Proof. vm_compute. reflexivity. Qed.

Lemma Prim2SF_minus_one :
  Prim2SF (-1)%float = S754_finite true 4503599627370496 (-52).
Proof. vm_compute. reflexivity. Qed.

Lemma ltb_leb (x y : float) : (x <? y)%float = true -> (x <=? y)%float = true.
Proof.
  rewrite ltb_spec, leb_spec. unfold SFltb, SFleb.
  destruct (SFcompare (Prim2SF x) (Prim2SF y)) as [[]|]; congruence.
Qed.

Lemma clamp_cases (x : float) :
  clamp x = (-1)%float \/ clamp x = 1%float
  \/ (clamp x = x /\ (x <? 1)%float = true /\ (-1 <? x)%float = true).
Proof.
  unfold clamp, py_max, py_min.
  destruct (x <? 1)%float eqn:H1.
  - destruct (-1 <? x)%float eqn:H2; auto.
  - right. left. reflexivity.
Qed.

Lemma clamp_in_unit (x : float) : in_unit (clamp x).
Proof.
  destruct (clamp_cases x) as [-> | [-> | (-> & H1 & H2)]].
  - split; reflexivity.
  - split; reflexivity.
  - split; apply ltb_leb; assumption.
Qed.

Lemma digits2_pos_bound (m : positive) :
  Z.pos m < 2 ^ Z.pos (digits2_pos m).
Proof.
  induction m as [m IH | m IH |]; simpl digits2_pos.
  - rewrite Pos2Z.inj_succ, Z.pow_succ_r by lia. lia.
  - rewrite Pos2Z.inj_succ, Z.pow_succ_r by lia. lia.
  - reflexivity.
Qed.

Lemma valid_mantissa_bound (s : bool) (m : positive) (e : Z) :
  valid_binary (S754_finite s m e) = true -> Z.pos m < 9007199254740992.
Proof.
  unfold valid_binary, bounded, canonical_mantissa, fexp, emin.
  intros H. apply andb_prop in H as [H _]. apply Z.eqb_eq in H.
  pose proof (digits2_pos_bound m) as Hd.
  assert (Z.pos (digits2_pos m) <= 53) as Hle by (unfold prec in H; lia).
  eapply Z.lt_le_trans; [exact Hd|].
  change 9007199254740992 with (2 ^ 53).
  apply Z.pow_le_mono_r; [reflexivity | exact Hle].
Qed.

Lemma round_half_even_bounds (num den b : Z) :
  0 <= num -> 0 < den -> num <= b * den ->
  0 <= round_half_even num den <= b.
Proof.
  intros Hn Hd Hb. unfold round_half_even.
  pose proof (Z.div_mod num den ltac:(lia)) as Hdm.
  pose proof (Z.mod_pos_bound num den Hd) as Hr.
  assert (0 <= num / den) as Hq by (apply Z.div_pos; lia).
  assert (num / den <= b) as Hqb.
  { apply Z.div_le_upper_bound; lia. }
  destruct (Z.compare_spec (2 * (num mod den)) den) as [He | Hl | Hg].
  - destruct (Z.even (num / den)); [lia|].
    assert (num / den <> b) by nia. lia.
  - lia.
  - assert (num / den <> b) by nia. lia.
Qed.

(** A finite float in [[-1, 1]] has magnitude [m * 2^e] with [e < 0] and
    [m <= 2^(-e)]. *)
Lemma unit_magnitude (x : float) (s : bool) (m : positive) (e : Z) :
  Prim2SF x = S754_finite s m e -> in_unit x ->
  e < 0 /\ Z.pos m <= 2 ^ (- e).
Proof.
  intros Hx [Hlo Hhi].
  pose proof (Prim2SF_valid x) as Hv. rewrite Hx in Hv.
  apply valid_mantissa_bound in Hv.
  rewrite leb_spec, Hx in Hlo, Hhi.
  rewrite Prim2SF_minus_one in Hlo. rewrite Prim2SF_one in Hhi.
  unfold SFleb, SFcompare in Hlo, Hhi.
  assert (e < -52 \/ (e = -52 /\ Z.pos m <= 4503599627370496)) as Hcase.
  { change (Pos.compare_cont Eq) with Pos.compare in Hlo, Hhi.
    destruct s.
    - destruct (Z.compare_spec (-52) e) as [He | Hl | Hg];
        [right | discriminate | left; lia].
      split; [lia|]. subst e.
      destruct (Pos.compare_spec 4503599627370496 m) as [Hc | Hc | Hc];
        cbn [CompOpp] in Hlo; try discriminate Hlo.
      + subst m. apply Z.le_refl.
      + apply Pos2Z.pos_le_pos, Pos.lt_le_incl, Hc.
    - destruct (Z.compare_spec e (-52)) as [He | Hl | Hg];
        [right | left; lia | discriminate].
      split; [lia|]. subst e.
      destruct (Pos.compare_spec m 4503599627370496) as [Hc | Hc | Hc];
        try discriminate Hhi.
      + subst m. apply Z.le_refl.
      + apply Pos2Z.pos_le_pos, Pos.lt_le_incl, Hc. }
  destruct Hcase as [He | [-> Hm]].
  - split; [lia|].
    assert (2 ^ 53 <= 2 ^ (- e)) as Hp by (apply Z.pow_le_mono_r; lia).
    change (2 ^ 53) with 9007199254740992 in Hp. lia.
  - split; [lia|]. exact Hm.
Qed.

Lemma scaled_decimal_unit (x : float) (s : bool) (m : positive) (e k : Z) :
  Prim2SF x = S754_finite s m e -> in_unit x -> 0 <= k ->
  0 <= scaled_decimal k m e <= 10 ^ k.
Proof.
  intros Hx Hu Hk.
  destruct (unit_magnitude x s m e Hx Hu) as [He Hm].
  unfold scaled_decimal.
  destruct (Z.leb_spec 0 e) as [H0 | _]; [lia|].
  assert (0 < 2 ^ (- e)) by (apply Z.pow_pos_nonneg; lia).
  assert (0 < 10 ^ k) by (apply Z.pow_pos_nonneg; lia).
  apply round_half_even_bounds; nia.
Qed.




(** The two thresholds exclude each other. *)
Lemma thresholds_exclusive (x : float) :
  (x <? -0.03)%float = true -> (0.03 <? x)%float = false.
Proof.
  rewrite !ltb_spec.
  change (Prim2SF (-0.03)) with (S754_finite true 8646911284551352 (-58)).
  change (Prim2SF 0.03) with (S754_finite false 8646911284551352 (-58)).
  unfold SFltb, SFcompare.
  destruct (Prim2SF x) as [s | [] | | [] m e]; try discriminate; reflexivity.
Qed.

End FloatFacts.

Import FloatFacts.

Module TextFacts.

Lemma startswith_spec (p s : str) :
  startswith p s = true <-> exists b, s = p ++ b.
Proof.
  revert s. induction p as [| a p IH]; intros s; simpl.
  - split; [eauto | reflexivity].
  - destruct s as [| b s]; simpl.
    + split; [discriminate | intros [t Ht]; discriminate].
    + rewrite andb_true_iff, N.eqb_eq, IH. split.
      * intros [-> [t ->]]. eauto.
      * intros [t Ht]. injection Ht as -> ->. eauto.
Qed.

Lemma contains_spec (p s : str) : contains p s = true <-> occurs_in p s.
Proof.
  unfold occurs_in. induction s as [| c s IH]; simpl.
  - rewrite orb_false_r, startswith_spec. split.
    + intros [b Hb]. exists [], b. exact Hb.
    + intros (a & b & H). destruct a; simpl in H; [eauto|discriminate].
  - rewrite orb_true_iff, startswith_spec, IH. split.
    + intros [[b Hb] | (a & b & ->)].
      * exists [], b. exact Hb.
      * exists (c :: a), b. reflexivity.
    + intros (a & b & H). destruct a as [| x a]; simpl in H.
      * left. eauto.
      * right. injection H as -> ->. eauto.
Qed.

Lemma lstrip_clean (s : str) : clean_head (lstrip s).
Proof.
  induction s as [| c s IH]; simpl; [exact I|].
  destruct (isspace c) eqn:Hc; [exact IH | exact Hc].
Qed.

Lemma lstrip_fixed (s : str) : clean_head s -> lstrip s = s.
Proof. destruct s as [| c s]; simpl; [reflexivity | intros ->; reflexivity]. Qed.

Lemma lstrip_keeps_last (a : str) (c : N) :
  isspace c = false -> exists a', lstrip (a ++ [c]) = a' ++ [c].
Proof.
  intros Hc. induction a as [| x a IH]; simpl.
  - rewrite Hc. exists []. reflexivity.
  - destruct (isspace x); [exact IH | exists (x :: a); reflexivity].
Qed.

Lemma rstrip_clean (s : str) : clean_head s -> clean_head (rstrip s).
Proof.
  destruct s as [| c s]; [intros _; exact I|]. simpl. intros Hc.
  unfold rstrip. simpl.
  destruct (lstrip_keeps_last (rev s) c Hc) as [a' ->].
  rewrite rev_app_distr. simpl. exact Hc.
Qed.

Lemma rstrip_idem (s : str) : rstrip (rstrip s) = rstrip s.
Proof.
  unfold rstrip. rewrite rev_involutive.
  rewrite (lstrip_fixed (lstrip (rev s))); [reflexivity | apply lstrip_clean].
Qed.

Lemma strip_idem (s : str) : strip (strip s) = strip s.
Proof.
  unfold strip.
  rewrite (lstrip_fixed (rstrip (lstrip s))).
  - apply rstrip_idem.
  - apply rstrip_clean, lstrip_clean.
Qed.

Lemma py_sum_ones {A} (l : list A) :
  py_sum (map (fun _ => 1%Z) l) = Z.of_nat (length l).
Proof.
  unfold py_sum.
  assert (forall acc, fold_left Z.add (map (fun _ : A => 1%Z) l) acc
                      = (acc + Z.of_nat (length l))%Z) as H.
  { induction l as [| x l IH]; intros acc; simpl length; simpl fold_left.
    - lia.
    - rewrite IH. lia. }
  rewrite H. lia.
Qed.

End TextFacts.

Import TextFacts.

Section Runs.

Context {C : Collaborators}.

Lemma translate_world (text : str) (w : world) :
  (_translate_to_english text w).2 = logged (CallTranslate text) w.
Proof.
  unfold _translate_to_english, logged, print. py_unfold.
  destruct (GoogleTranslator_translate text) as [r | e].
  - destruct (usable_translation r text); reflexivity.
  - destruct (print_error (log_translation_failed e)); reflexivity.
Qed.

(** [_translate_to_english] returns the pair of [translation_of], unless
    the translator raised and the failure cannot be printed. *)
Lemma translate_cases (text : str) (w : world) :
  (exists e m,
      GoogleTranslator_translate text = Raise e
      /\ print_error (log_translation_failed e) = Some m
      /\ _translate_to_english text w
         = (Raise (UnicodeEncodeError m), logged (CallTranslate text) w))
  \/ _translate_to_english text w
     = (Return (translation_of text), logged (CallTranslate text) w).
Proof.
  unfold _translate_to_english, translation_of, logged, print. py_unfold.
  destruct (GoogleTranslator_translate text) as [r | e].
  - right. destruct (usable_translation r text); reflexivity.
  - destruct (print_error (log_translation_failed e)) as [m |] eqn:Hp.
    + left. exists e, m. split; [reflexivity|].
      split; [exact Hp | reflexivity].
    + right. reflexivity.
Qed.

Lemma translate_return (text : str) (w : world) (p : str * bool) :
  (_translate_to_english text w).1 = Return p -> p = translation_of text.
Proof.
  destruct (translate_cases text w) as [(e & m & _ & _ & ->) | ->];
    cbn [fst]; intros H; [discriminate H | injection H as <-; reflexivity].
Qed.

Lemma ko_score_run (text : str) (w : world) :
  _ko_sentiment_score text w
  = (Return
       (let pos := count_matches (g_KO_POSITIVE (w_globals w)) text in
        let neg := count_matches (g_KO_NEGATIVE (w_globals w)) text in
        (clamp (float_of_int (pos - neg) * 0.25), pos, neg)), w).
Proof. reflexivity. Qed.

Lemma ko_stage_cases (text : str) (k : bool) (w : world) :
  (k = true
   /\ exists pos neg score m,
        print_error (log_ko text pos neg score) = Some m
        /\ ko_stage text k w = (Raise (UnicodeEncodeError m), w))
  \/ exists v,
       (if k then (_ko_sentiment_score text w).1
        else Return (0%float, 0%Z, 0%Z)) = Return v
       /\ ko_stage text k w = (Return v, w).
Proof.
  remember (ko_stage text k w) as run eqn:Hrun.
  unfold ko_stage in Hrun. destruct k.
  - unfold mbind at 1, py_bind at 1 in Hrun. rewrite ko_score_run in Hrun.
    match type of Hrun with
    | context [mret ?x] => set (v := x) in *
    end.
    cbv beta iota in Hrun.
    unfold mbind, py_bind, print, mret, py_ret in Hrun.
    destruct (print_error (log_ko text v.1.2 v.2 v.1.1)) as [m |] eqn:Hp;
      subst run.
    + left. split; [reflexivity|]. exists v.1.2, v.2, v.1.1, m.
      split; [exact Hp | reflexivity].
    + right. exists v. split; reflexivity.
  - subst run. right. exists (0%float, 0%Z, 0%Z). split; reflexivity.
Qed.

Lemma translation_stage_cases (text language : str) (w : world) :
  let a := attempted text language in
  (a = true
   /\ exists line m,
        progress_line text line /\ print_error line = Some m
        /\ translation_stage text language (_is_korean text) w
           = (Raise (UnicodeEncodeError m), logged (CallTranslate text) w))
  \/ translation_stage text language (_is_korean text) w
     = (Return (if a then translation_of text else (text, false)),
        if a then logged (CallTranslate text) w else w).
Proof.
  cbv zeta.
  remember (translation_stage text language (_is_korean text) w)
    as run eqn:Hrun.
  unfold translation_stage in Hrun. unfold attempted.
  destruct (_is_korean text || negb (str_eqb language (u "en"))).
  - unfold mbind at 1, py_bind at 1 in Hrun.
    destruct (translate_cases text w) as [(e & m & He & Hp & Hs) | Hs];
      rewrite Hs in Hrun; clear Hs.
    + subst run. left. split; [reflexivity|].
      exists (log_translation_failed e), m.
      split; [left; exists e; split; [exact He | reflexivity]|].
      split; [exact Hp | reflexivity].
    + cbv beta iota in Hrun.
      unfold mbind, py_bind, print, mret, py_ret in Hrun.
      destruct (print_error
                  (log_translation text (translation_of text).1
                     (translation_of text).2)) as [m |] eqn:Hp;
        subst run.
      * left. split; [reflexivity|]. eexists _, m.
        split; [right; right; left; reflexivity|].
        split; [exact Hp | reflexivity].
      * right. reflexivity.
  - subst run. right. reflexivity.
Qed.

Lemma english_stage_cases (text en : str) (k t : bool) (w : world) :
  let reach := t || negb k in
  (reach = true
   /\ exists e,
        TextBlob_polarity en = Raise e
        /\ english_stage en k t w = (Raise e, logged (CallTextBlob en) w))
  \/ (reach = true
      /\ exists p line m,
           TextBlob_polarity en = Return p
           /\ progress_line text line /\ print_error line = Some m
           /\ english_stage en k t w
              = (Raise (UnicodeEncodeError m), logged (CallTextBlob en) w))
  \/ exists p b,
       english_stage en k t w
       = (Return (p, b), if reach then logged (CallTextBlob en) w else w)
       /\ (if reach
           then TextBlob_polarity en = Return p
                /\ b = (en_keyword_boost (w_globals w) en).1.1
           else p = 0%float /\ b = 0%float).
Proof.
  cbv zeta.
  remember (english_stage en k t w) as run eqn:Hrun.
  unfold english_stage in Hrun. destruct (t || negb k).
  - unfold mbind at 1, py_bind at 1, external in Hrun.
    destruct (TextBlob_polarity en) as [p | e] eqn:Hc.
    + unfold mbind at 1, py_bind at 1, global, id in Hrun.
      cbv beta iota zeta in Hrun. cbn [w_globals] in Hrun.
      remember (en_keyword_boost (w_globals w) en) as kb eqn:Hkb.
      unfold mbind, py_bind, print, mret, py_ret in Hrun.
      destruct (print_error (log_textblob p kb.1.2 kb.2 kb.1.1))
        as [m |] eqn:Hp; subst run.
      * right; left. split; [reflexivity|]. eexists p, _, m.
        split; [reflexivity|].
        split; [do 3 right; left; eexists _, _, _, _; reflexivity|].
        split; [exact Hp | reflexivity].
      * right; right. exists p, kb.1.1. split; [reflexivity|].
        split; reflexivity.
    + subst run. left. split; [reflexivity|]. exists e.
      split; reflexivity.
  - subst run. right; right. exists 0%float, 0%float.
    split; [reflexivity|]. split; reflexivity.
Qed.

(** The world after the calls of an analysis: the classifier call on top of
    the translation call. *)
Lemma stage_worlds (text en : str) (c a : bool) (w : world) :
  (if c then logged (CallTextBlob en)
               (if a then logged (CallTranslate text) w else w)
   else if a then logged (CallTranslate text) w else w)
  = World (w_globals w)
      ((if c then [CallTextBlob en] else [])
       ++ (if a then [CallTranslate text] else []) ++ w_calls w).
Proof. destruct c, a, w; reflexivity. Qed.

(** Every run of [analyze_body]: a progress line could not be printed, or
    the classifier raised, or the run reached its last line. *)
Lemma analyze_body_cases (text language : str) (w : world) :
  let tr := if attempted text language then translation_of text
            else (text, false) in
  let reach := tr.2 || negb (_is_korean text) in
  let after (c a : bool) :=
    World (w_globals w)
      ((if c then [CallTextBlob tr.1] else [])
       ++ (if a then [CallTranslate text] else []) ++ w_calls w) in
  (exists line m c a,
      progress_line text line /\ print_error line = Some m
      /\ analyze_body text language w
         = (Raise (UnicodeEncodeError m), after c a)
      /\ (a = true -> attempted text language = true)
      /\ (c = true -> a = attempted text language /\ reach = true))
  \/ (exists e,
        reach = true /\ TextBlob_polarity tr.1 = Raise e
        /\ analyze_body text language w
           = (Raise e, after true (attempted text language)))
  \/ (exists l,
        analyze_body text language w
        = (Return l, after reach (attempted text language))
        /\ is_ko l = _is_korean text
        /\ Return (ko_score l, ko_pos l, ko_neg l)
           = (if is_ko l then (_ko_sentiment_score text w).1
              else Return (0%float, 0%Z, 0%Z))
        /\ (en_text l, translated l) = tr
        /\ (if translated l || negb (is_ko l)
            then TextBlob_polarity (en_text l) = Return (tb_polarity l)
                 /\ en_boost l
                    = (en_keyword_boost (w_globals w) (en_text l)).1.1
            else tb_polarity l = 0%float /\ en_boost l = 0%float)
        /\ (fused l, method_used l)
           = fuse (is_ko l) (translated l) (ko_score l) (tb_polarity l)
               (en_boost l)
        /\ final l = clamp (fused l)
        /\ display_text l = (if translated l then en_text l else text)).
Proof.
  cbv zeta.
  set (a := attempted text language).
  set (tr := if a then translation_of text else (text, false)).
  set (k := _is_korean text).
  remember (analyze_body text language w) as run eqn:Hrun.
  unfold analyze_body in Hrun. cbv zeta in Hrun. fold k in Hrun.
  unfold mbind at 1, py_bind at 1 in Hrun.
  (* step 1 *)
  destruct (ko_stage_cases text k w)
    as [(_ & pos & neg & score & m & Hp & Hs) | (v & Hv & Hs)];
    rewrite Hs in Hrun; clear Hs.
  { left. exists (log_ko text pos neg score), m, false, false.
    split; [right; left; eexists _, _, _; reflexivity|].
    split; [exact Hp|]. subst run.
    split; [destruct w; reflexivity|]. split; discriminate. }
  destruct v as [[ks kp] kn]. cbv beta iota in Hrun.
  unfold mbind at 1, py_bind at 1 in Hrun.
  (* step 2, translation *)
  destruct (translation_stage_cases text language w)
    as [(Ha & line & m & Hl & Hp & Hs) | Hs];
    fold k a in Hs; rewrite Hs in Hrun; clear Hs.
  { left. exists line, m, false, true.
    split; [exact Hl|]. split; [exact Hp|]. subst run.
    split; [destruct w; reflexivity|].
    split; [intros _; exact Ha | discriminate]. }
  fold tr in Hrun. destruct tr as [en t] eqn:Htr. cbv beta iota in Hrun.
  cbn [fst snd].
  unfold mbind at 1, py_bind at 1 in Hrun.
  (* step 2, the English signal *)
  destruct (english_stage_cases text en k t
              (if a then logged (CallTranslate text) w else w))
    as [(Hr & e & He & Hs) | [(Hr & p & line & m & Hc & Hl & Hp & Hs)
                             | (p & b & Hs & Hpb)]];
    rewrite Hs in Hrun; clear Hs.
  { right; left. exists e. split; [exact Hr|]. split; [exact He|].
    subst run. f_equal. destruct a, w; reflexivity. }
  { left. exists line, m, true, a.
    split; [exact Hl|]. split; [exact Hp|]. subst run.
    split; [f_equal; destruct a, w; reflexivity|].
    split; [intros ->; reflexivity | intros _; split; [reflexivity | exact Hr]]. }
  cbv beta iota in Hrun.
  assert (Hg : w_globals (if a then logged (CallTranslate text) w else w)
               = w_globals w) by (destruct a; reflexivity).
  rewrite Hg in Hpb. clear Hg.
  rewrite (stage_worlds text en (t || negb k) a w) in Hrun.
  (* step 3 *)
  destruct (fuse k t ks p b) as [f mu] eqn:Hf.
  unfold mbind, py_bind, print, mret, py_ret in Hrun.
  destruct (print_error (log_final text (py_max (-1) (py_min 1 f)) mu))
    as [m |] eqn:Hp.
  { left. eexists _, m, (t || negb k), a.
    split.
    { do 4 right. exists k, t, ks, p, b, (py_max (-1) (py_min 1 f)).
      rewrite Hf. reflexivity. }
    split; [exact Hp|]. subst run. split; [reflexivity|].
    split; [intros ->; reflexivity | intros Hr; split; [reflexivity | exact Hr]]. }
  right; right. eexists. subst run. split; [reflexivity|].
  cbv beta iota delta
    [is_ko ko_score ko_pos ko_neg en_text translated tb_polarity
     en_boost fused method_used final display_text].
  rewrite Hf.
  split; [reflexivity|]. split; [symmetry; exact Hv|].
  split; [reflexivity|]. split; [exact Hpb|].
  repeat split; reflexivity.
Qed.

(** What a run that reaches its last line leaves. *)
Lemma analyze_body_inv (text language : str) (w w' : world) (l : locals) :
  analyze_body text language w = (Return l, w') ->
  let tr := if attempted text language then translation_of text
            else (text, false) in
  is_ko l = _is_korean text
  /\ Return (ko_score l, ko_pos l, ko_neg l)
     = (if is_ko l then (_ko_sentiment_score text w).1
        else Return (0%float, 0%Z, 0%Z))
  /\ (en_text l, translated l) = tr
  /\ (if translated l || negb (is_ko l)
      then TextBlob_polarity (en_text l) = Return (tb_polarity l)
           /\ en_boost l = (en_keyword_boost (w_globals w) (en_text l)).1.1
      else tb_polarity l = 0%float /\ en_boost l = 0%float)
  /\ (fused l, method_used l)
     = fuse (is_ko l) (translated l) (ko_score l) (tb_polarity l) (en_boost l)
  /\ final l = clamp (fused l)
  /\ display_text l = (if translated l then en_text l else text)
  /\ w_globals w' = w_globals w
  /\ w_calls w'
     = (if translated l || negb (is_ko l) then [CallTextBlob (en_text l)]
        else [])
       ++ (if attempted text language then [CallTranslate text] else [])
       ++ w_calls w.
Proof.
  intros H. cbv zeta.
  destruct (analyze_body_cases text language w)
    as [(line & m & c & a & _ & _ & Hr & _)
       | [(e & _ & _ & Hr) | (l' & Hr & Hk & Hks & Hen & Hcls & Hfu & Hfi & Hd)]];
    rewrite Hr in H; try discriminate H.
  injection H as <- <-.
  assert (Htr1 : (if attempted text language then translation_of text
                  else (text, false)).1 = en_text l')
    by (rewrite <- Hen; reflexivity).
  assert (Htr2 : (if attempted text language then translation_of text
                  else (text, false)).2 = translated l')
    by (rewrite <- Hen; reflexivity).
  cbn [w_globals w_calls]. rewrite Htr1, Htr2, <- Hk.
  repeat split; assumption.
Qed.



(** The calls of a run, whatever its outcome: at most the classifier call on
    top of the translation call, each only under its condition. *)
Lemma analyze_body_calls (text language : str) (w : world) :
  let tr := if attempted text language then translation_of text
            else (text, false) in
  exists c a : bool,
    (analyze_body text language w).2
    = World (w_globals w)
        ((if c then [CallTextBlob tr.1] else [])
         ++ (if a then [CallTranslate text] else []) ++ w_calls w)
    /\ (a = true -> attempted text language = true)
    /\ (c = true -> tr.2 || negb (_is_korean text) = true)
    /\ (forall e, (analyze_body text language w).1 = Raise e ->
          (c = true /\ TextBlob_polarity tr.1 = Raise e)
          \/ exists line m,
               progress_line text line /\ print_error line = Some m
               /\ e = UnicodeEncodeError m)
    /\ ((forall m, (analyze_body text language w).1
                   <> Raise (UnicodeEncodeError m))
        \/ stdout_accepts text ->
        a = attempted text language)
    /\ ((exists l, (analyze_body text language w).1 = Return l)
        \/ stdout_accepts text ->
        c = tr.2 || negb (_is_korean text)).
Proof.
  cbv zeta.
  destruct (analyze_body_cases text language w)
    as [(line & m & c & a & Hl & Hp & Hr & Ha & Hc)
       | [(e & Hreach & He & Hr) | (l & Hr & _)]];
    rewrite Hr; cbn [fst snd].
  - exists c, a. split; [reflexivity|]. split; [exact Ha|].
    split; [intros H; apply Hc; exact H|].
    split.
    { intros e H. injection H as <-. right. exists line, m.
      repeat split; assumption. }
    split.
    + intros [H | H]; [exfalso; exact (H m eq_refl)|].
      rewrite (H line Hl) in Hp. discriminate Hp.
    + intros [[l H] | H]; [discriminate H|].
      rewrite (H line Hl) in Hp. discriminate Hp.
  - exists true, (attempted text language). split; [reflexivity|].
    split; [tauto|]. split; [intros _; exact Hreach|].
    split; [intros e' H; injection H as <-; left; split; [reflexivity | exact He]|].
    split; [reflexivity|]. intros _. symmetry. exact Hreach.
  - exists ((if attempted text language then translation_of text
             else (text, false)).2 || negb (_is_korean text)),
      (attempted text language).
    split; [reflexivity|]. split; [tauto|]. split; [tauto|].
    split; [intros e H; discriminate H|]. split; reflexivity.
Qed.

End Runs.

(** ** A UTF-8 standard output *)

Module ConsoleFacts.













End ConsoleFacts.

Import ConsoleFacts.


Lemma analyze_valid_inv `{C : Collaborators}
    (text language : str) (w : world) (r : SentimentResult) :
  _is_valid_text text = true ->
  (_analyze_sentiment text language w).1 = Return r ->
  exists l w', analyze_body text language w = (Return l, w')
    /\ r = result_of l
    /\ _analyze_sentiment text language w = (Return r, w').
Proof.
  intros Hv H. unfold _analyze_sentiment in *. rewrite Hv in *.
  cbn [negb] in *. unfold mbind, py_bind in *.
  destruct (analyze_body text language w) as [[l | e] w1] eqn:Hb;
    [|discriminate H].
  unfold mret, py_ret in *. cbn [fst] in H. injection H as <-. eauto.
Qed.

Lemma analyze_body_eta `{C : Collaborators}
    (text language : str) (w : world) (l : locals) :
  (analyze_body text language w).1 = Return l ->
  analyze_body text language w = (Return l, (analyze_body text language w).2).
Proof.
  destruct (analyze_body text language w) as [o w']. cbn [fst snd].
  intros ->. reflexivity.
Qed.

(** C1. For a valid text, the score before clamping is given by exactly one
    of three cases on (is_ko, translated): 0.4/0.3/0.3 over the Korean score,
    the classifier polarity and the keyword bonus; the Korean score alone;
    0.6/0.4 over polarity and bonus whenever the text has no Hangul. *)
Theorem fusion_three_cases `{C : Collaborators}
    (text language : str) (w : world) (l : locals) :
  _is_valid_text text = true ->
  (analyze_body text language w).1 = Return l ->
  (_analyze_sentiment text language w).1 = Return (result_of l)
  /\ is_ko l = _is_korean text
  /\ (is_ko l = true -> translated l = true ->
      fused l = (ko_score l * 0.4 + tb_polarity l * 0.3 + en_boost l * 0.3)%float)
  /\ (is_ko l = true -> translated l = false -> fused l = ko_score l)
  /\ (is_ko l = false ->
      fused l = (tb_polarity l * 0.6 + en_boost l * 0.4)%float)
  /\ ((is_ko l = true /\ translated l = true)
      \/ (is_ko l = true /\ translated l = false)
      \/ is_ko l = false)
  /\ Return (ko_score l, ko_pos l, ko_neg l)
     = (if is_ko l then (_ko_sentiment_score text w).1
        else Return (0%float, 0%Z, 0%Z))
  /\ (if translated l || negb (is_ko l)
      then TextBlob_polarity (en_text l) = Return (tb_polarity l)
           /\ en_boost l = (en_keyword_boost (w_globals w) (en_text l)).1.1
      else tb_polarity l = 0%float /\ en_boost l = 0%float).
Proof.
  intros Hvalid Hrun. apply analyze_body_eta in Hrun.
  pose proof (analyze_body_inv text language w _ l Hrun)
    as (Hko & Hks & _ & Hen & Hfuse & _).
  split.
  { unfold _analyze_sentiment. rewrite Hvalid. cbn [negb].
    unfold mbind, py_bind. rewrite Hrun. reflexivity. }
  split; [exact Hko|].
  assert (Hf : fused l
               = (fuse (is_ko l) (translated l) (ko_score l) (tb_polarity l)
                    (en_boost l)).1) by (rewrite <- Hfuse; reflexivity).
  unfold fuse in Hf.
  repeat split.
  - intros H1 H2. rewrite H1, H2 in Hf. exact Hf.
  - intros H1 H2. rewrite H1, H2 in Hf. exact Hf.
  - intros H1. rewrite H1 in Hf. exact Hf.
  - destruct (is_ko l), (translated l); auto.
  - exact Hks.
  - exact Hen.
Qed.

Lemma fusion_three_cases_witness :
  exists l,
    (@analyze_body demo (u "기쁨") (u "auto") initial_world).1 = Return l
    /\ is_ko l = true /\ translated l = true
    /\ fused l = (ko_score l * 0.4 + tb_polarity l * 0.3 + en_boost l * 0.3)%float
    /\ fused l = 0.38499999999999995%float.
Proof.
  eexists. split; [vm_compute; reflexivity|].
  split; [reflexivity|]. split; [reflexivity|].
  split; [|vm_compute; reflexivity].
  refine (proj1 (proj2 (proj2 (fusion_three_cases (C := demo) (u "기쁨")
    (u "auto") initial_world _ _ _))) _ _).
  - vm_compute. reflexivity.
  - vm_compute. reflexivity.
  - reflexivity.
  - reflexivity.
Defined.

(** C3 as the specification words it: the placeholder text is not the one
    the code returns. *)
Lemma invalid_placeholder_differs :
  _is_valid_text (u "") = false
  /\ (@_analyze_sentiment demo (u "") (u "auto") initial_world).1
     <> Return (mkSentimentResult NEUTRAL 0%float (u "(unanalyzable)")
                  (u "none")).
Proof.
  split; [reflexivity|]. vm_compute. intros H. discriminate H.
Qed.

(** C3, amended. A text that fails the validity filter gets the fixed
    result at once: label "Neutral 😐", polarity 0.0, analyzed text
    "(분석 불가)", method "none"; no collaborator is called and the world is
    unchanged. *)
Theorem invalid_text_fixed_result `{C : Collaborators}
    (text language : str) (w : world) :
  _is_valid_text text = false ->
  _analyze_sentiment text language w
  = (Return (mkSentimentResult (u "Neutral 😐") 0%float (u "(분석 불가)")
               (u "none")), w).
Proof.
  intros H. unfold _analyze_sentiment. rewrite H. reflexivity.
Qed.

Lemma invalid_text_fixed_result_witness :
  _is_valid_text (u "[removed]") = false
  /\ forall w, @_analyze_sentiment demo (u "[removed]") (u "ko") w
     = (Return (mkSentimentResult (u "Neutral 😐") 0%float (u "(분석 불가)")
                  (u "none")), w).
Proof.
  split; [reflexivity|]. intros w.
  apply (invalid_text_fixed_result (C := demo)). reflexivity.
Defined.

Lemma invalid_result_run `{C : Collaborators}
    (text language : str) (w : world) :
  _is_valid_text text = false ->
  _analyze_sentiment text language w = (Return invalid_result, w).
Proof.
  intros H. unfold _analyze_sentiment. rewrite H. reflexivity.
Qed.



(** C5. For a valid text the label follows from the clamped score by the
    0.03 deadband: above 0.03 Positive, below -0.03 Negative, else
    Neutral. *)
Theorem label_deadband `{C : Collaborators}
    (text language : str) (w : world) (r : SentimentResult) :
  _is_valid_text text = true ->
  (_analyze_sentiment text language w).1 = Return r ->
  exists l, (analyze_body text language w).1 = Return l
    /\ final l = clamp (fused l)
    /\ ((0.03 <? final l)%float = true -> label r = POSITIVE)
    /\ ((final l <? -0.03)%float = true -> label r = NEGATIVE)
    /\ ((0.03 <? final l)%float = false ->
        (final l <? -0.03)%float = false -> label r = NEUTRAL).
Proof.
  intros Hv H.
  destruct (analyze_valid_inv text language w r Hv H)
    as (l & w' & Hb & -> & _).
  pose proof (analyze_body_inv text language w w' l Hb)
    as (_ & _ & _ & _ & _ & Hfin & _).
  exists l. rewrite Hb. split; [reflexivity|]. split; [exact Hfin|].
  unfold result_of, label_of. cbv beta iota delta [label].
  repeat split.
  - intros ->. reflexivity.
  - intros Hn. rewrite (thresholds_exclusive _ Hn), Hn. reflexivity.
  - intros -> ->. reflexivity.
Qed.

Lemma label_deadband_witness :
  exists r,
    (@_analyze_sentiment demo (u "Market crash") (u "en") initial_world).1
    = Return r
    /\ label r = NEGATIVE
    /\ exists l,
         (@analyze_body demo (u "Market crash") (u "en") initial_world).1
         = Return l
         /\ ((final l <? -0.03)%float = true -> label r = NEGATIVE).
Proof.
  eexists. split; [vm_compute; reflexivity|].
  split; [vm_compute; reflexivity|].
  lazymatch goal with
  | |- exists l, _ /\ (_ -> label ?R = _) =>
      assert (Hv : _is_valid_text (u "Market crash") = true)
        by (vm_compute; reflexivity);
      assert (Hr : (@_analyze_sentiment demo (u "Market crash") (u "en")
                      initial_world).1 = Return R)
        by (vm_compute; reflexivity);
      destruct (label_deadband (C := demo) (u "Market crash") (u "en")
                  initial_world R Hv Hr)
        as (l & Hb & _ & _ & Hneg & _)
  end.
  exists l. split; [exact Hb | exact Hneg].
Defined.

Lemma analyze_valid_run `{C : Collaborators}
    (text language : str) (w : world) :
  _is_valid_text text = true ->
  _analyze_sentiment text language w
  = (match (analyze_body text language w).1 with
     | Return l => Return (result_of l)
     | Raise e => Raise e
     end, (analyze_body text language w).2).
Proof.
  intros Hv. unfold _analyze_sentiment. rewrite Hv. cbn [negb].
  unfold mbind, py_bind.
  destruct (analyze_body text language w) as [[l | e] w']; reflexivity.
Qed.











Lemma count_matches_length (lexicon : list str) (text : str) :
  count_matches lexicon text
  = Z.of_nat (length (List.filter (fun e => contains e text) lexicon)).
Proof. unfold count_matches. apply py_sum_ones. Qed.

(** C7. [_ko_sentiment_score] counts the entries of the positive and of the
    negative Korean lexicon that occur in the text as substrings and returns
    the clamped score (pos - neg) * 0.25 with the two counts; the three
    examples of the specification evaluate as stated, and the score is
    always in [-1, 1]. *)
Theorem ko_score_counts (text : str) (w : world) :
  let pos := Z.of_nat (length (List.filter (fun e => contains e text)
                                 (g_KO_POSITIVE (w_globals w)))) in
  let neg := Z.of_nat (length (List.filter (fun e => contains e text)
                                 (g_KO_NEGATIVE (w_globals w)))) in
  _ko_sentiment_score text w
  = (Return (clamp (float_of_int (pos - neg) * 0.25), pos, neg), w)
  /\ (forall e, contains e text = true <-> occurs_in e text)
  /\ in_unit (clamp (float_of_int (pos - neg) * 0.25))
  /\ (_ko_sentiment_score (u "기쁨") initial_world).1
     = Return (0.25%float, 1%Z, 0%Z)
  /\ (_ko_sentiment_score (u "슬픔") initial_world).1
     = Return ((-0.25)%float, 0%Z, 1%Z)
  /\ (_ko_sentiment_score (u "회의실 예약") initial_world).1
     = Return (0%float, 0%Z, 0%Z).
Proof.
  cbv zeta. split.
  { rewrite ko_score_run. cbv zeta. rewrite !count_matches_length.
    reflexivity. }
  split; [intros e; apply contains_spec|].
  split; [apply clamp_in_unit|].
  repeat split; vm_compute; reflexivity.
Qed.

(** C8. [_translate_to_english] catches what the translator raises, but
    its handler prints the failure before it returns the original text: when
    that line cannot be printed, the [UnicodeEncodeError] of [print] leaves
    the function. In every other case it returns a pair: the original text
    with [False] after a failure, no answer, an answer empty after trimming
    or equal to the input after trimming and lowercasing; [True] only with a
    trimmed answer that differs from the input. *)
Theorem translate_handler_can_raise `{C : Collaborators}
    (text : str) (w : world) :
  (forall e m, GoogleTranslator_translate text = Raise e ->
     print_error (log_translation_failed e) = Some m ->
     _translate_to_english text w
     = (Raise (UnicodeEncodeError m), logged (CallTranslate text) w))
  /\ (forall e, GoogleTranslator_translate text = Raise e ->
        print_error (log_translation_failed e) = None ->
        _translate_to_english text w
        = (Return (text, false), logged (CallTranslate text) w))
  /\ (GoogleTranslator_translate text = Return None ->
      _translate_to_english text w
      = (Return (text, false), logged (CallTranslate text) w))
  /\ (forall s, GoogleTranslator_translate text = Return (Some s) ->
        strip s = [] \/ lower (strip s) = lower (strip text) ->
        _translate_to_english text w
        = (Return (text, false), logged (CallTranslate text) w))
  /\ (forall r, (_translate_to_english text w).1 = Return (r, true) ->
        exists s, GoogleTranslator_translate text = Return (Some s)
          /\ r = strip s
          /\ lower (strip r) <> lower (strip text))
  /\ (forall r, (_translate_to_english text w).1 = Return (r, false) ->
        r = text).
Proof.
  unfold _translate_to_english, logged, print. py_unfold.
  destruct (GoogleTranslator_translate text) as [[s |] | e] eqn:Ht;
    cbn [usable_translation].
  - destruct (truthy s && truthy (strip s)
              && negb (str_eqb (lower (strip s)) (lower (strip text))))
      eqn:Hu; cbn [fst snd default].
    + apply andb_prop in Hu as [Hu Hne]. apply andb_prop in Hu as [_ Hs].
      apply negb_true_iff in Hne. unfold str_eqb in Hne.
      apply bool_decide_eq_false in Hne.
      repeat split; try discriminate.
      * intros s' Hs' [He | He]; injection Hs' as <-.
        -- rewrite He in Hs. discriminate Hs.
        -- contradiction.
      * intros r H. injection H as <-. exists s.
        repeat split. rewrite strip_idem. exact Hne.
    + repeat split; try discriminate.
      intros r H. injection H as <-. reflexivity.
  - cbn [fst snd]. repeat split; try discriminate.
    intros r H. injection H as <-. reflexivity.
  - split.
    { intros e' m H Hp. injection H as <-. rewrite Hp. reflexivity. }
    split.
    { intros e' H Hp. injection H as <-. rewrite Hp. reflexivity. }
    split; [discriminate|]. split; [discriminate|].
    destruct (print_error (log_translation_failed e)); cbn [fst];
      split; intros r H; try discriminate H.
    injection H as <-. reflexivity.
Qed.

Lemma translate_handler_can_raise_witness :
  @_translate_to_english echoing ([0xD800%N] ++ u " good") initial_world
  = (Raise (UnicodeEncodeError
              (u "'utf-8' codec can't encode character '\ud800' in position 8: surrogates not allowed")),
     logged (CallTranslate ([0xD800%N] ++ u " good")) initial_world).
Proof.
  apply (proj1 (translate_handler_can_raise (C := echoing)
                  ([0xD800%N] ++ u " good") initial_world)
           (Exception (([0xD800%N] ++ u " good") ++ u " --> No translation was found using the current translator. Try another translator?")));
    vm_compute; reflexivity.
Defined.

Section Frame.

Context {C : Collaborators}.

Lemma preserves_ret {A} (a : A) : preserves (mret a).
Proof. intros w. reflexivity. Qed.

Lemma preserves_raise {A} (e : exn) : preserves (raise (A := A) e).
Proof. intros w. reflexivity. Qed.

Lemma preserves_global {A} (f : globals -> A) : preserves (global f).
Proof. intros w. reflexivity. Qed.

Lemma preserves_external {A} (c : call) (r : outcome A) :
  preserves (external c r).
Proof. intros w. reflexivity. Qed.

Lemma preserves_print (line : str) : preserves (print line).
Proof. intros w. reflexivity. Qed.

Lemma preserves_bind {A B} (m : py A) (f : A -> py B) :
  preserves m -> (forall a, preserves (f a)) -> preserves (m ≫= f).
Proof.
  intros Hm Hf w. unfold mbind, py_bind. specialize (Hm w).
  destruct (m w) as [[a | e] w1]; cbn [snd] in *.
  - rewrite Hf. exact Hm.
  - exact Hm.
Qed.

Lemma preserves_try {A} (m : py A) (h : exn -> py A) :
  preserves m -> (forall e, preserves (h e)) -> preserves (try_except m h).
Proof.
  intros Hm Hh w. unfold try_except. specialize (Hm w).
  destruct (m w) as [[a | e] w1]; cbn [snd] in *.
  - exact Hm.
  - rewrite Hh. exact Hm.
Qed.

Ltac preserve :=
  repeat first
    [ apply preserves_ret | apply preserves_raise | apply preserves_global
    | apply preserves_external | apply preserves_print
    | apply preserves_bind; [| intros ?]
    | apply preserves_try; [| intros ?]
    | solve [auto with preserves]
    | match goal with
      | |- preserves (if ?b then _ else _) => destruct b
      | |- preserves (match ?x with _ => _ end) => destruct x
      end ].

Lemma preserves_ko (text : str) : preserves (_ko_sentiment_score text).
Proof. unfold _ko_sentiment_score. preserve. Qed.

Lemma preserves_translate (text : str) :
  preserves (_translate_to_english text).
Proof. unfold _translate_to_english. preserve. Qed.

Hint Resolve preserves_ko preserves_translate : preserves.

Lemma preserves_analyze_body (text language : str) :
  preserves (analyze_body text language).
Proof.
  unfold analyze_body, ko_stage, translation_stage, english_stage. preserve.
Qed.

Hint Resolve preserves_analyze_body : preserves.

Lemma preserves_analyze (text language : str) :
  preserves (_analyze_sentiment text language).
Proof.
  unfold _analyze_sentiment, analyze_body, ko_stage, translation_stage,
    english_stage.
  preserve.
Qed.

Lemma preserves_summarize (text : str) (n : Z) (lang : str) :
  preserves (_summarize_text text n lang).
Proof. unfold _summarize_text. preserve. Qed.

Lemma preserves_fetch (k q l : str) (n : Z) : preserves (_fetch_news k q l n).
Proof. unfold _fetch_news. preserve. Qed.

Hint Resolve preserves_analyze preserves_summarize preserves_fetch
  : preserves.

Lemma preserves_step (l : str) (n : Z) (a : raw_article)
    (counts : gmap str Z) (results : list ArticleResult) :
  preserves (get_news_step l n a counts results).
Proof. unfold get_news_step. preserve. Qed.

Hint Resolve preserves_step : preserves.

Lemma preserves_loop (l : str) (n : Z) (raw : list raw_article) :
  forall counts results, preserves (get_news_loop l n raw counts results).
Proof.
  induction raw as [| a raw IH]; intros counts results;
    cbn [get_news_loop]; preserve.
Qed.

Hint Resolve preserves_loop : preserves.

Lemma preserves_get_news (k q l : str) (n s : Z) :
  preserves (get_news k q l n s).
Proof. unfold get_news. preserve. Qed.

Lemma preserves_sentiment_endpoint (text language : str) :
  preserves (sentiment_endpoint text language).
Proof. unfold sentiment_endpoint. preserve. Qed.

Lemma preserves_summarize_endpoint (text : str) (n : Z) (l : str) :
  preserves (summarize_endpoint text n l).
Proof. unfold summarize_endpoint. preserve. Qed.

Hint Resolve preserves_get_news preserves_sentiment_endpoint
  preserves_summarize_endpoint : preserves.

Lemma preserves_serve (r : request) : preserves (serve r).
Proof. unfold serve. destruct r; preserve. Qed.

End Frame.

Section Steady.

Context {C : Collaborators}.

Lemma steady_ret {A} (a : A) : steady (mret a).
Proof. intros g. exists (Return a), []. intros c. reflexivity. Qed.

Lemma steady_raise {A} (e : exn) : steady (raise (A := A) e).
Proof. intros g. exists (Raise e), []. intros c. reflexivity. Qed.

Lemma steady_global {A} (f : globals -> A) : steady (global f).
Proof. intros g. exists (Return (f g)), []. intros c. reflexivity. Qed.

Lemma steady_external {A} (c : call) (r : outcome A) :
  steady (external c r).
Proof. intros g. exists r, [c]. intros c'. reflexivity. Qed.

Lemma steady_print (line : str) : steady (print line).
Proof.
  intros g. unfold print. eexists _, []. intros c. reflexivity.
Qed.

Lemma steady_bind {A B} (m : py A) (f : A -> py B) :
  steady m -> (forall a, steady (f a)) -> steady (m ≫= f).
Proof.
  intros Hm Hf g. destruct (Hm g) as (o & new & Hrun).
  destruct o as [a | e].
  - destruct (Hf a g) as (o' & new' & Hrun').
    exists o', (new' ++ new). intros c. unfold mbind, py_bind.
    rewrite Hrun, Hrun', app_assoc. reflexivity.
  - exists (Raise e), new. intros c. unfold mbind, py_bind.
    rewrite Hrun. reflexivity.
Qed.

Lemma steady_try {A} (m : py A) (h : exn -> py A) :
  steady m -> (forall e, steady (h e)) -> steady (try_except m h).
Proof.
  intros Hm Hh g. destruct (Hm g) as (o & new & Hrun).
  destruct o as [a | e].
  - exists (Return a), new. intros c. unfold try_except.
    rewrite Hrun. reflexivity.
  - destruct (Hh e g) as (o' & new' & Hrun').
    exists o', (new' ++ new). intros c. unfold try_except.
    rewrite Hrun, Hrun', app_assoc. reflexivity.
Qed.

Ltac steadily :=
  repeat first
    [ apply steady_ret | apply steady_raise | apply steady_global
    | apply steady_external | apply steady_print
    | apply steady_bind; [| intros ?]
    | apply steady_try; [| intros ?]
    | match goal with
      | |- steady (if ?b then _ else _) => destruct b
      | |- steady (match ?x with _ => _ end) => destruct x
      | |- steady (let _ := _ in _) => cbv zeta
      end ].

Lemma steady_analyze (text language : str) :
  steady (_analyze_sentiment text language).
Proof.
  unfold _analyze_sentiment, analyze_body, ko_stage, translation_stage,
    english_stage, _ko_sentiment_score, _translate_to_english.
  steadily.
Qed.

Lemma steady_summarize (text : str) (n : Z) (lang : str) :
  steady (_summarize_text text n lang).
Proof. unfold _summarize_text. steadily. Qed.

(** The outcome of a steady computation depends on the globals only. *)
Lemma steady_outcome {A} (m : py A) (w1 w2 : world) :
  steady m -> w_globals w1 = w_globals w2 -> (m w1).1 = (m w2).1.
Proof.
  intros Hm Hg. destruct w1 as [g c1], w2 as [g2 c2]. cbn [w_globals] in Hg.
  subst g2. destruct (Hm g) as (o & new & Hrun).
  rewrite !Hrun. reflexivity.
Qed.

End Steady.

(** C9. The four lexicons are sound data: the English sets are disjoint,
    no Korean entry is in both lists, none of the four literals repeats an
    entry; and no request the application serves, nor any of the scoring
    functions, changes them. *)
Theorem lexicons_integrity `{C : Collaborators} :
  EN_POSITIVE ∩ EN_NEGATIVE = ∅
  /\ (forall e, e ∈ KO_POSITIVE -> e ∉ KO_NEGATIVE)
  /\ NoDup EN_POSITIVE_literal /\ NoDup EN_NEGATIVE_literal
  /\ NoDup KO_POSITIVE /\ NoDup KO_NEGATIVE
  /\ w_globals initial_world
     = Globals EN_POSITIVE EN_NEGATIVE KO_POSITIVE KO_NEGATIVE SUMY_LANG_MAP
  /\ (forall (r : request) (w : world),
        w_globals (serve r w).2 = w_globals w)
  /\ (forall (text language : str) (w : world),
        w_globals (_analyze_sentiment text language w).2 = w_globals w
        /\ w_globals (_ko_sentiment_score text w).2 = w_globals w
        /\ w_globals (_translate_to_english text w).2 = w_globals w).
Proof.
  split; [apply (bool_decide_unpack _); vm_compute; exact I|].
  split.
  { apply Forall_forall. apply (bool_decide_unpack _). vm_compute. exact I. }
  split; [apply (bool_decide_unpack _); vm_compute; exact I|].
  split; [apply (bool_decide_unpack _); vm_compute; exact I|].
  split; [apply (bool_decide_unpack _); vm_compute; exact I|].
  split; [apply (bool_decide_unpack _); vm_compute; exact I|].
  split; [reflexivity|].
  split; [intros r w; apply preserves_serve|].
  intros text language w. split; [apply preserves_analyze|].
  split; [apply preserves_ko | apply preserves_translate].
Qed.

Lemma labels_distinct :
  POSITIVE <> NEUTRAL /\ POSITIVE <> NEGATIVE /\ NEUTRAL <> NEGATIVE.
Proof. repeat split; intros H; vm_compute in H; discriminate H. Qed.

Lemma label_of_cases (x : float) :
  label_of x = POSITIVE \/ label_of x = NEUTRAL \/ label_of x = NEGATIVE.
Proof.
  unfold label_of.
  destruct (0.03 <? x)%float; [tauto|].
  destruct (x <? -0.03)%float; tauto.
Qed.

Lemma analyze_label `{C : Collaborators}
    (text language : str) (w : world) (r : SentimentResult) :
  (_analyze_sentiment text language w).1 = Return r ->
  label r = POSITIVE \/ label r = NEUTRAL \/ label r = NEGATIVE.
Proof.
  intros H. destruct (_is_valid_text text) eqn:Hv.
  - destruct (analyze_valid_inv text language w r Hv H)
      as (l & w' & _ & -> & _).
    apply label_of_cases.
  - rewrite (invalid_result_run text language w Hv) in H.
    injection H as <-. right. left. reflexivity.
Qed.

Lemma in_LABELS (L : str) :
  L ∈ LABELS <-> L = POSITIVE \/ L = NEUTRAL \/ L = NEGATIVE.
Proof.
  unfold LABELS. rewrite !elem_of_union, !elem_of_singleton. tauto.
Qed.

Lemma histogram_initial : histogram_of initial_counts [].
Proof.
  pose proof labels_distinct as (H1 & H2 & H3).
  split; [|split].
  - unfold initial_counts, LABELS.
    rewrite !dom_insert_L, dom_empty_L. apply set_eq. intros x.
    rewrite !elem_of_union, !elem_of_singleton, elem_of_empty. tauto.
  - intros L HL. apply in_LABELS in HL. unfold initial_counts, labelled.
    cbn [filter list_filter length].
    destruct HL as [-> | [-> | ->]].
    + rewrite lookup_insert_ne by congruence.
      rewrite lookup_insert_ne by congruence.
      rewrite lookup_insert_eq. reflexivity.
    + rewrite lookup_insert_ne by congruence.
      rewrite lookup_insert_eq. reflexivity.
    + rewrite lookup_insert_eq. reflexivity.
  - constructor.
Qed.

Lemma labelled_snoc (L : str) (results : list ArticleResult)
    (a : ArticleResult) :
  labelled L (results ++ [a])
  = (labelled L results + (if decide (label (sentiment a) = L) then 1 else 0))%Z.
Proof.
  unfold labelled. rewrite filter_app, length_app.
  rewrite Nat2Z.inj_add. f_equal.
  rewrite filter_cons, filter_nil.
  destruct (decide (label (sentiment a) = L)); reflexivity.
Qed.

Lemma histogram_bump (counts : gmap str Z) (results : list ArticleResult)
    (a : ArticleResult) :
  histogram_of counts results ->
  label (sentiment a) ∈ LABELS ->
  histogram_of (bump (label (sentiment a)) counts) (results ++ [a]).
Proof.
  intros (Hdom & Hcount & Hall) Hin. unfold bump.
  split; [|split].
  - rewrite dom_insert_L, Hdom.
    apply subseteq_union_1_L, singleton_subseteq_l, Hin.
  - intros L HL. rewrite labelled_snoc.
    destruct (decide (label (sentiment a) = L)) as [-> | Hne].
    + rewrite lookup_insert_eq, (Hcount L HL). reflexivity.
    + rewrite lookup_insert_ne by exact Hne.
      rewrite (Hcount L HL). f_equal. lia.
  - apply Forall_app. split; [exact Hall|]. constructor; [exact Hin|constructor].
Qed.

Section News.

Context {C : Collaborators}.

Lemma get_news_step_inv (language : str) (n : Z) (a : raw_article)
    (counts counts' : gmap str Z) (results results' : list ArticleResult)
    (w w' : world) :
  get_news_step language n a counts results w
  = (Return (counts', results'), w') ->
  exists art,
    counts' = bump (label (sentiment art)) counts
    /\ results' = results ++ [art]
    /\ label (sentiment art) ∈ LABELS.
Proof.
  unfold get_news_step. cbv zeta.
  set (title := or_else (get (a_title a)) _).
  set (desc := or_else (get (a_description a)) _).
  set (content := or_else (get (a_content a)) _).
  set (analysis := title ++ _).
  intros H. unfold mbind at 1, py_bind at 1 in H.
  destruct (_analyze_sentiment analysis language w) as [[sent | e] w1] eqn:Hs;
    [|discriminate H].
  assert (Hl : label sent ∈ LABELS).
  { apply in_LABELS. apply (analyze_label analysis language w).
    rewrite Hs. reflexivity. }
  unfold mbind at 1, py_bind at 1 in H.
  match type of H with
  | context [match ?m w1 with _ => _ end] =>
      destruct (m w1) as [o w2] eqn:Hsrc
  end.
  destruct o as [src | e]; [|discriminate H].
  unfold mbind at 1, py_bind at 1 in H.
  destruct (_summarize_text content n language w2) as [[summ | e] w3];
    [|discriminate H].
  destruct (a_url a) as [| | url]; destruct src as [src |];
    try discriminate H.
  - unfold mret, py_ret in H. injection H as <- <- <-.
    lazymatch goal with
    | |- context [results ++ [?X] = _] => exists X
    end.
    split; [reflexivity|]. split; [reflexivity|]. exact Hl.
  - unfold mret, py_ret in H. injection H as <- <- <-.
    lazymatch goal with
    | |- context [results ++ [?X] = _] => exists X
    end.
    split; [reflexivity|]. split; [reflexivity|]. exact Hl.
Qed.

Lemma get_news_loop_inv (language : str) (n : Z) (raw : list raw_article) :
  forall counts results counts' results' w w',
    get_news_loop language n raw counts results w
    = (Return (counts', results'), w') ->
    histogram_of counts results ->
    histogram_of counts' results'
    /\ length results' = (length results + length raw)%nat.
Proof.
  induction raw as [| a raw IH]; intros counts results counts' results' w w' H Hh.
  - cbn [get_news_loop] in H. unfold mret, py_ret in H.
    injection H as <- <- <-. split; [exact Hh|]. cbn [length]. lia.
  - cbn [get_news_loop] in H. unfold mbind at 1, py_bind at 1 in H.
    destruct (get_news_step language n a counts results w)
      as [[[c1 r1] | e] w1] eqn:Hstep; [|discriminate H].
    apply get_news_step_inv in Hstep as (art & -> & -> & Hl).
    apply IH in H as [H1 H2]; [|apply histogram_bump; assumption].
    split; [exact H1|]. rewrite H2, length_app. cbn [length]. lia.
Qed.

Lemma get_news_inv (k q language : str) (n s : Z) (w : world)
    (resp : NewsResponse) :
  (get_news k q language n s w).1 = Return resp ->
  (total resp = 0%Z /\ sentiment_summary resp = ∅ /\ articles resp = [])
  \/ (histogram_of (sentiment_summary resp) (articles resp)
      /\ total resp = Z.of_nat (length (articles resp))
      /\ (0 < total resp)%Z).
Proof.
  unfold get_news. unfold mbind at 1, py_bind at 1.
  destruct (try_except _ _ w) as [[raw | e] w1]; [|discriminate].
  destruct raw as [| a raw].
  - unfold mret, py_ret. intros H. injection H as <-. left. tauto.
  - unfold mbind at 1, py_bind at 1.
    destruct (get_news_loop language s (a :: raw) initial_counts [] w1)
      as [[[counts results] | e] w2] eqn:Hloop; [|discriminate].
    unfold mret, py_ret. intros H. injection H as <-.
    apply get_news_loop_inv in Hloop as [Hh Hlen];
      [|exact histogram_initial].
    right. cbn [sentiment_summary articles total].
    split; [exact Hh|]. split; [reflexivity|].
    rewrite Hlen. cbn [length]. lia.
Qed.

End News.

(** C10. The label of every result is one of the three constants
    "Positive 😊", "Neutral 😐", "Negative 😟", which are pairwise distinct
    and none the bare word; the histogram of [get_news] starts with exactly
    these keys at zero and, for a response with articles, keeps exactly
    these keys, counts for each label the articles that carry it, and every
    article carries one of the three. *)
Theorem label_partition `{C : Collaborators} :
  (forall text language w r,
      (_analyze_sentiment text language w).1 = Return r ->
      label r = u "Positive 😊" \/ label r = u "Neutral 😐"
      \/ label r = u "Negative 😟")
  /\ (u "Positive 😊" <> u "Neutral 😐" /\ u "Positive 😊" <> u "Negative 😟"
      /\ u "Neutral 😐" <> u "Negative 😟")
  /\ (u "Positive 😊" <> u "Positive" /\ u "Neutral 😐" <> u "Neutral"
      /\ u "Negative 😟" <> u "Negative")
  /\ dom initial_counts
     = ({[u "Positive 😊"; u "Neutral 😐"; u "Negative 😟"]} : gset str)
  /\ (forall L, L ∈ dom initial_counts -> initial_counts !! L = Some 0%Z)
  /\ (forall k q language n s w resp,
        (get_news k q language n s w).1 = Return resp ->
        (0 < total resp)%Z ->
        dom (sentiment_summary resp)
        = ({[u "Positive 😊"; u "Neutral 😐"; u "Negative 😟"]} : gset str)
        /\ (forall L, L ∈ dom (sentiment_summary resp) ->
              sentiment_summary resp !! L
              = Some (Z.of_nat (length (filter
                         (fun a => label (sentiment a) = L) (articles resp)))))
        /\ Forall (fun a => label (sentiment a) ∈ dom (sentiment_summary resp))
             (articles resp)
        /\ total resp = Z.of_nat (length (articles resp))).
Proof.
  split; [intros text language w r H; exact (analyze_label _ _ _ _ H)|].
  split; [exact labels_distinct|].
  split.
  { repeat split; intros H; vm_compute in H; discriminate H. }
  pose proof histogram_initial as (Hd0 & Hc0 & _).
  split; [exact Hd0|].
  split.
  { intros L HL. rewrite Hd0 in HL. exact (Hc0 L HL). }
  intros k q language n s w resp H Hpos.
  destruct (get_news_inv k q language n s w resp H)
    as [(H0 & _) | ((Hd & Hc & Hall) & Ht & _)]; [lia|].
  split; [exact Hd|]. split.
  { intros L HL. rewrite Hd in HL. exact (Hc L HL). }
  split; [rewrite Hd; exact Hall | exact Ht].
Qed.

Lemma label_partition_witness :
  exists resp,
    (@get_news demo (u "key") (u "markets") (u "en") 5 3 initial_world).1
    = Return resp
    /\ total resp = 2%Z
    /\ sentiment_summary resp !! POSITIVE = Some 1%Z
    /\ sentiment_summary resp !! NEGATIVE = Some 1%Z
    /\ dom (sentiment_summary resp)
       = ({[u "Positive 😊"; u "Neutral 😐"; u "Negative 😟"]} : gset str).
Proof.
  eexists. split; [vm_compute; reflexivity|].
  split; [reflexivity|].
  split; [vm_compute; reflexivity|].
  split; [vm_compute; reflexivity|].
  refine (proj1 (proj2 (proj2 (proj2 (proj2 (proj2
            (label_partition (C := demo)))))) (u "key") (u "markets") (u "en")
            5%Z 3%Z initial_world _ _ _)).
  - vm_compute. reflexivity.
  - reflexivity.
Defined.

(** ** Text predicates *)

(** ** Further properties of the scoring functions *)

(** X1. [_is_korean] holds exactly of the texts with a character in the
    Hangul syllables block or the compatibility jamo block. *)
Theorem is_korean_iff (text : str) :
  _is_korean text = true
  <-> exists ch, ch ∈ text
        /\ ((0xAC00 <= ch /\ ch <= 0xD7A3) \/ (0x3131 <= ch /\ ch <= 0x3163))%N.
Proof.
  induction text as [| c text IH]; cbn [_is_korean].
  - split; [discriminate|]. intros (ch & Hin & _).
    apply elem_of_nil in Hin. contradiction.
  - destruct (((0xAC00 <=? c)%N && (c <=? 0xD7A3)%N)
              || ((0x3131 <=? c)%N && (c <=? 0x3163)%N)) eqn:Hc.
    + split; [intros _|reflexivity]. exists c. split; [left|].
      apply orb_true_iff in Hc.
      rewrite !andb_true_iff, !N.leb_le in Hc. exact Hc.
    + rewrite IH. split.
      * intros (ch & Hin & Hr). exists ch. split; [right; exact Hin | exact Hr].
      * intros (ch & Hin & Hr). apply elem_of_cons in Hin as [-> | Hin].
        -- apply orb_false_iff in Hc.
           rewrite !andb_false_iff, !N.leb_gt in Hc. lia.
        -- eauto.
Qed.

(** X2. A text put together from two parts has Hangul exactly when one of
    the parts has. *)
Theorem is_korean_app (a b : str) :
  _is_korean (a ++ b) = _is_korean a || _is_korean b.
Proof.
  induction a as [| c a IH]; [reflexivity|]. cbn [app _is_korean].
  destruct (((0xAC00 <=? c)%N && (c <=? 0xD7A3)%N)
            || ((0x3131 <=? c)%N && (c <=? 0x3163)%N)); [reflexivity | exact IH].
Qed.

Lemma lstrip_truthy (s : str) :
  truthy (lstrip s) = true <-> exists c, c ∈ s /\ isspace c = false.
Proof.
  induction s as [| c s IH]; cbn [lstrip].
  - split; [discriminate|]. intros (c & Hin & _).
    apply elem_of_nil in Hin. contradiction.
  - destruct (isspace c) eqn:Hc.
    + rewrite IH. split.
      * intros (x & Hin & Hx). exists x. split; [right; exact Hin | exact Hx].
      * intros (x & Hin & Hx). apply elem_of_cons in Hin as [-> | Hin];
          [congruence | eauto].
    + split; [intros _|reflexivity]. exists c. split; [left | exact Hc].
Qed.

Lemma rstrip_truthy (s : str) :
  clean_head s -> truthy (rstrip s) = truthy s.
Proof.
  destruct s as [| c s]; [reflexivity|]. cbn [clean_head]. intros Hc.
  unfold rstrip. cbn [rev].
  destruct (lstrip_keeps_last (rev s) c Hc) as [a' ->].
  rewrite rev_app_distr. reflexivity.
Qed.

Lemma strip_truthy (s : str) :
  truthy (strip s) = true <-> exists c, c ∈ s /\ isspace c = false.
Proof.
  unfold strip. rewrite rstrip_truthy by apply lstrip_clean.
  apply lstrip_truthy.
Qed.

(** X3. [_is_valid_text] accepts exactly the texts that have a character
    other than whitespace and contain none of the three markers. *)
Theorem valid_text_iff (text : str) :
  _is_valid_text text = true
  <-> (exists c, c ∈ text /\ isspace c = false)
      /\ ~ occurs_in (u "[removed]") text
      /\ ~ occurs_in (u "[Removed]") text
      /\ ~ occurs_in (u "(제목 없음)") text.
Proof.
  unfold _is_valid_text, invalid_markers.
  rewrite <- strip_truthy, <- !contains_spec.
  destruct (truthy text) eqn:Ht; cbn [negb orb].
  - destruct (truthy (strip text)); cbn [negb].
    + cbn [existsb]. rewrite negb_true_iff, !orb_false_iff.
      split.
      * intros (H1 & H2 & H3 & _). rewrite H1, H2, H3.
        repeat split; discriminate.
      * intros (_ & H1 & H2 & H3).
        destruct (contains (u "[removed]") text); [contradiction H1; reflexivity|].
        destruct (contains (u "[Removed]") text); [contradiction H2; reflexivity|].
        destruct (contains (u "(제목 없음)") text); [contradiction H3; reflexivity|].
        tauto.
    + split; [discriminate | intros [H _]; discriminate H].
  - destruct text; [|discriminate Ht].
    split; [discriminate | intros [H _]; discriminate H].
Qed.

(** ** The Korean lexicon score and the translation *)

Lemma filter_length_le {A} (f : A -> bool) (l : list A) :
  (length (List.filter f l) <= length l)%nat.
Proof.
  induction l as [| x l IH]; cbn [List.filter length]; [lia|].
  destruct (f x); cbn [length]; lia.
Qed.

Lemma filter_length_mono {A} (f g : A -> bool) (l : list A) :
  (forall x, f x = true -> g x = true) ->
  (length (List.filter f l) <= length (List.filter g l))%nat.
Proof.
  intros Hfg. induction l as [| x l IH]; cbn [List.filter length]; [lia|].
  destruct (f x) eqn:Hf.
  - rewrite (Hfg x Hf). cbn [length]. lia.
  - destruct (g x); cbn [length]; lia.
Qed.

Lemma filter_length_pos {A} (f : A -> bool) (l : list A) (x : A) :
  x ∈ l -> f x = true -> (1 <= length (List.filter f l))%nat.
Proof.
  intros Hin Hf. induction l as [| y l IH].
  - apply elem_of_nil in Hin. contradiction.
  - cbn [List.filter]. apply elem_of_cons in Hin as [<- | Hin].
    + rewrite Hf. cbn [length]. lia.
    + destruct (f y); cbn [length]; [lia | auto].
Qed.

Lemma occurs_in_trans (e t t' : str) :
  occurs_in e t -> occurs_in t t' -> occurs_in e t'.
Proof.
  intros (a & b & ->) (a' & b' & ->).
  exists (a' ++ a), (b ++ b'). rewrite <- !app_assoc. reflexivity.
Qed.

(** X4. Each count of [_ko_sentiment_score] lies between 0 and the size of
    its lexicon, and is at least 1 as soon as one entry of the lexicon
    occurs somewhere in the text (a stem matches every inflected form that
    contains it). *)
Theorem ko_counts_bounds (text : str) (w : world) :
  exists s pos neg,
    (_ko_sentiment_score text w).1 = Return (s, pos, neg)
    /\ (0 <= pos <= Z.of_nat (length (g_KO_POSITIVE (w_globals w))))%Z
    /\ (0 <= neg <= Z.of_nat (length (g_KO_NEGATIVE (w_globals w))))%Z
    /\ (forall e, e ∈ g_KO_POSITIVE (w_globals w) -> occurs_in e text ->
          (1 <= pos)%Z)
    /\ (forall e, e ∈ g_KO_NEGATIVE (w_globals w) -> occurs_in e text ->
          (1 <= neg)%Z).
Proof.
  rewrite ko_score_run. cbv zeta. rewrite !count_matches_length.
  eexists _, _, _. split; [reflexivity|].
  pose proof (filter_length_le (fun e => contains e text)
                (g_KO_POSITIVE (w_globals w))).
  pose proof (filter_length_le (fun e => contains e text)
                (g_KO_NEGATIVE (w_globals w))).
  split; [lia|]. split; [lia|]. split.
  - intros e Hin Ho. apply contains_spec in Ho.
    pose proof (filter_length_pos (fun e => contains e text) _ e Hin Ho). lia.
  - intros e Hin Ho. apply contains_spec in Ho.
    pose proof (filter_length_pos (fun e => contains e text) _ e Hin Ho). lia.
Qed.

(** X5. A text that contains another text matches at least the entries the
    other matches: neither count of [_ko_sentiment_score] goes down when
    text is added around. *)
Theorem ko_counts_monotone (text text' : str) (w : world) :
  occurs_in text text' ->
  exists s pos neg s' pos' neg',
    (_ko_sentiment_score text w).1 = Return (s, pos, neg)
    /\ (_ko_sentiment_score text' w).1 = Return (s', pos', neg')
    /\ (pos <= pos')%Z /\ (neg <= neg')%Z.
Proof.
  intros Ho. rewrite !ko_score_run. cbv zeta. rewrite !count_matches_length.
  eexists _, _, _, _, _, _. split; [reflexivity|]. split; [reflexivity|].
  assert (Hm : forall e, contains e text = true -> contains e text' = true).
  { intros e He. apply contains_spec. apply contains_spec in He.
    exact (occurs_in_trans e text text' He Ho). }
  pose proof (filter_length_mono _ _ (g_KO_POSITIVE (w_globals w)) Hm).
  pose proof (filter_length_mono _ _ (g_KO_NEGATIVE (w_globals w)) Hm).
  lia.
Qed.

Lemma ko_counts_monotone_witness :
  exists s pos neg s' pos' neg',
    (_ko_sentiment_score (u "기쁘") initial_world).1 = Return (s, pos, neg)
    /\ (_ko_sentiment_score (u "참 기쁘다") initial_world).1
       = Return (s', pos', neg')
    /\ (pos <= pos')%Z /\ (neg <= neg')%Z.
Proof.
  apply ko_counts_monotone. exists (u "참 "), (u "다"). reflexivity.
Defined.

Lemma ko_score_check_all :
  forallb ko_score_check (map (fun n => (Z.of_nat n - 50)%Z) (seq 0 101))
  = true.
Proof. vm_compute. reflexivity. Qed.

Lemma ko_score_check_range (d : Z) :
  (-50 <= d <= 50)%Z -> ko_score_check d = true.
Proof.
  intros Hd. pose proof ko_score_check_all as Hall.
  rewrite forallb_forall in Hall. apply Hall.
  apply in_map_iff. exists (Z.to_nat (d + 50)). split; [lia|].
  apply in_seq. lia.
Qed.

Lemma ko_counts_range (text : str) (w : world) :
  exists s pos neg,
    (_ko_sentiment_score text w).1 = Return (s, pos, neg)
    /\ (0 <= pos <= Z.of_nat (length (g_KO_POSITIVE (w_globals w))))%Z
    /\ (0 <= neg <= Z.of_nat (length (g_KO_NEGATIVE (w_globals w))))%Z
    /\ s = clamp (float_of_int (pos - neg) * 0.25).
Proof.
  rewrite ko_score_run. cbv zeta. rewrite !count_matches_length.
  eexists _, _, _. split; [reflexivity|].
  pose proof (filter_length_le (fun e => contains e text)
                (g_KO_POSITIVE (w_globals w))).
  pose proof (filter_length_le (fun e => contains e text)
                (g_KO_NEGATIVE (w_globals w))).
  split; [lia|]. split; [lia | reflexivity].
Qed.

(** X6. With the lexicons of the module (50 entries each) the score of
    [_ko_sentiment_score] is exactly a quarter of the difference of the
    counts while that difference is between -3 and 3, is 1.0 from 4 up and
    -1.0 from -4 down; it is positive exactly when more positive than
    negative entries match, negative exactly when fewer. *)
Theorem ko_score_values (text : str) (w : world) :
  w_globals w = module_globals ->
  exists s pos neg,
    (_ko_sentiment_score text w).1 = Return (s, pos, neg)
    /\ (0 <= pos <= 50)%Z /\ (0 <= neg <= 50)%Z
    /\ ((4 <= pos - neg)%Z -> s = 1%float)
    /\ ((pos - neg <= -4)%Z -> s = (-1)%float)
    /\ ((-4 < pos - neg < 4)%Z -> s = (float_of_int (pos - neg) * 0.25)%float)
    /\ (0 <? s)%float = (neg <? pos)%Z
    /\ (s <? 0)%float = (pos <? neg)%Z.
Proof.
  intros Hg.
  destruct (ko_counts_range text w) as (s & pos & neg & Hrun & Hp & Hn & Hs).
  rewrite Hg in Hp, Hn.
  change (Z.of_nat (length (g_KO_POSITIVE module_globals))) with 50%Z in Hp.
  change (Z.of_nat (length (g_KO_NEGATIVE module_globals))) with 50%Z in Hn.
  exists s, pos, neg. split; [exact Hrun|]. split; [exact Hp|].
  split; [exact Hn|].
  pose proof (ko_score_check_range (pos - neg) ltac:(lia)) as Hc.
  unfold ko_score_check in Hc. cbv zeta in Hc. rewrite <- Hs in Hc.
  apply andb_prop in Hc as [Hc Hneg]. apply andb_prop in Hc as [Hc Hpos].
  apply Bool.eqb_prop in Hneg, Hpos.
  split; [|split; [|split; [|split]]].
  - intros Hd. destruct (Z.leb_spec 4 (pos - neg)); [|lia].
    apply FloatAxioms.Leibniz.eqb_spec in Hc. exact Hc.
  - intros Hd. destruct (Z.leb_spec 4 (pos - neg)); [lia|].
    destruct (Z.leb_spec (pos - neg) (-4)); [|lia].
    apply FloatAxioms.Leibniz.eqb_spec in Hc. exact Hc.
  - intros Hd. destruct (Z.leb_spec 4 (pos - neg)); [lia|].
    destruct (Z.leb_spec (pos - neg) (-4)); [lia|].
    apply FloatAxioms.Leibniz.eqb_spec in Hc. exact Hc.
  - rewrite Hpos. destruct (Z.ltb_spec 0 (pos - neg)), (Z.ltb_spec neg pos);
      try reflexivity; lia.
  - rewrite Hneg. destruct (Z.ltb_spec (pos - neg) 0), (Z.ltb_spec pos neg);
      try reflexivity; lia.
Qed.

Lemma ko_score_values_witness :
  exists s pos neg,
    (_ko_sentiment_score (u "행복한 성공과 승리의 기쁨") initial_world).1
    = Return (s, pos, neg)
    /\ (4 <= pos - neg)%Z /\ s = 1%float.
Proof.
  destruct (ko_score_values (u "행복한 성공과 승리의 기쁨") initial_world eq_refl)
    as (s & pos & neg & Hrun & _ & _ & Hsat & _).
  assert (Hv : (_ko_sentiment_score (u "행복한 성공과 승리의 기쁨")
                  initial_world).1 = Return (1%float, 5%Z, 0%Z))
    by (vm_compute; reflexivity).
  rewrite Hv in Hrun. injection Hrun as <- <- <-.
  exists 1%float, 5%Z, 0%Z. split; [exact Hv|]. split; [lia|].
  apply Hsat. lia.
Defined.

(** X7. A translation that [_translate_to_english] reports as successful
    is never empty and has no whitespace at either end. *)
Theorem translation_trimmed `{C : Collaborators} (text : str) (w : world)
    (r : str) :
  (_translate_to_english text w).1 = Return (r, true) ->
  r <> [] /\ strip r = r.
Proof.
  intros H. apply translate_return in H. revert H. unfold translation_of.
  destruct (GoogleTranslator_translate text) as [[s |] | e];
    cbn [usable_translation]; try discriminate.
  destruct (truthy s && truthy (strip s)
            && negb (str_eqb (lower (strip s)) (lower (strip text)))) eqn:Hu;
    [|discriminate].
  intros H. injection H as ->. cbn [default].
  apply andb_prop in Hu as [Hu _]. apply andb_prop in Hu as [_ Hs].
  split; [|apply strip_idem].
  intros He. rewrite He in Hs. discriminate Hs.
Qed.

Lemma translation_trimmed_witness :
  u "joy" <> [] /\ strip (u "joy") = u "joy".
Proof.
  apply (translation_trimmed (C := demo) (u "기쁨") initial_world).
  vm_compute. reflexivity.
Defined.

(** ** Results of the analysis *)

Lemma placeholder_length : length (u "(분석 불가)") = 7%nat.
Proof. vm_compute. reflexivity. Qed.

(** X8. The analyzed text of every result has at most 100 characters. For
    a valid text it is the first 100 characters of the translation exactly
    when translation was attempted and succeeded, and the first 100
    characters of the original text in every other case; for an invalid
    text it is the placeholder. *)
Theorem analyzed_text_bounded `{C : Collaborators}
    (text language : str) (w : world) (r : SentimentResult) :
  (_analyze_sentiment text language w).1 = Return r ->
  (length (analyzed_text r) <= 100)%nat
  /\ (_is_valid_text text = false -> analyzed_text r = u "(분석 불가)")
  /\ (_is_valid_text text = true ->
      analyzed_text r
      = take 100 (if attempted text language && (translation_of text).2
                  then (translation_of text).1 else text))
  /\ ((translation_of text).2 = true ->
      (_translate_to_english text w).1 = Return (translation_of text)).
Proof.
  intros H.
  assert (Htr : (translation_of text).2 = true ->
                (_translate_to_english text w).1
                = Return (translation_of text)).
  { intros Hok.
    destruct (translate_cases text w) as [(e & m & He & _ & _) | ->];
      [|reflexivity].
    unfold translation_of in Hok. rewrite He in Hok. discriminate Hok. }
  destruct (_is_valid_text text) eqn:Hv.
  - destruct (analyze_valid_inv text language w r Hv H)
      as (l & w' & Hb & -> & _).
    pose proof (analyze_body_inv text language w w' l Hb)
      as (_ & _ & Hen & _ & _ & _ & Hd & _).
    unfold result_of. cbv beta iota delta [analyzed_text]. unfold prefix.
    split; [rewrite length_take; lia|]. split; [discriminate|].
    split; [|exact Htr]. intros _. rewrite Hd. cbv zeta in Hen.
    destruct (attempted text language); cbn [andb].
    + rewrite <- Hen. cbn [fst snd]. reflexivity.
    + injection Hen as _ ->. reflexivity.
  - rewrite (invalid_result_run text language w Hv) in H. injection H as <-.
    unfold invalid_result. cbv beta iota delta [analyzed_text].
    split; [rewrite placeholder_length; lia|].
    split; [reflexivity|]. split; [discriminate | exact Htr].
Qed.

Lemma analyzed_text_bounded_witness :
  exists r,
    (@_analyze_sentiment demo (u "기쁨") (u "auto") initial_world).1 = Return r
    /\ (length (analyzed_text r) <= 100)%nat
    /\ analyzed_text r = u "joy".
Proof.
  eexists. split; [vm_compute; reflexivity|].
  split; [|reflexivity].
  refine (proj1 (analyzed_text_bounded (C := demo) (u "기쁨") (u "auto")
                   initial_world _ _)).
  vm_compute. reflexivity.
Defined.

Lemma fuse_method_not_none (is_ko translated : bool) (a b c : float) :
  (fuse is_ko translated a b c).2 <> u "none"
  /\ (fuse is_ko translated a b c).2 <> [].
Proof.
  unfold fuse.
  replace (u "KO사전(") with (75%N :: u "O사전(") by (vm_compute; reflexivity).
  replace (u "KO사전 only(") with (75%N :: u "O사전 only(")
    by (vm_compute; reflexivity).
  replace (u "TextBlob(") with (84%N :: u "extBlob(")
    by (vm_compute; reflexivity).
  replace (u "none") with (110%N :: u "one") by (vm_compute; reflexivity).
  destruct (is_ko && translated); [split; cbn [snd app]; discriminate|].
  destruct (is_ko && negb translated); split; cbn [snd app]; discriminate.
Qed.

Lemma valid_result_method `{C : Collaborators}
    (text language : str) (w : world) (r : SentimentResult) :
  _is_valid_text text = true ->
  (_analyze_sentiment text language w).1 = Return r ->
  exists is_ko translated ko tb boost,
    method r = (fuse is_ko translated ko tb boost).2.
Proof.
  intros Hv H.
  destruct (analyze_valid_inv text language w r Hv H)
    as (l & w' & Hb & -> & _).
  pose proof (analyze_body_inv text language w w' l Hb)
    as (_ & _ & _ & _ & Hfuse & _).
  exists (is_ko l), (translated l), (ko_score l), (tb_polarity l), (en_boost l).
  unfold result_of. cbv beta iota delta [method].
  rewrite <- Hfuse. reflexivity.
Qed.

(** X9. The method of a result is "none" exactly when the text failed the
    validity filter; for a valid text it is never empty. *)
Theorem method_none_iff_invalid `{C : Collaborators}
    (text language : str) (w : world) (r : SentimentResult) :
  (_analyze_sentiment text language w).1 = Return r ->
  (method r = u "none" <-> _is_valid_text text = false)
  /\ method r <> [].
Proof.
  intros H. destruct (_is_valid_text text) eqn:Hv.
  - destruct (valid_result_method text language w r Hv H)
      as (k & t & a & b & c & ->).
    destruct (fuse_method_not_none k t a b c) as [H1 H2].
    split; [split; [contradiction | discriminate] | exact H2].
  - rewrite (invalid_result_run text language w Hv) in H. injection H as <-.
    split; [split; reflexivity|].
    unfold invalid_result. cbv beta iota delta [method].
    replace (u "none") with (110%N :: u "one") by (vm_compute; reflexivity).
    discriminate.
Qed.

Lemma method_none_iff_invalid_witness :
  exists r,
    (@_analyze_sentiment demo (u "good news") (u "en") initial_world).1
    = Return r
    /\ (method r = u "none" <-> _is_valid_text (u "good news") = false)
    /\ method r = u "TextBlob(0.80)+EN키워드(0.15)".
Proof.
  eexists. split; [vm_compute; reflexivity|].
  split; [|vm_compute; reflexivity].
  refine (proj1 (method_none_iff_invalid (C := demo) (u "good news") (u "en")
                   initial_world _ _)).
  vm_compute. reflexivity.
Defined.

(** X10. The requested language matters only through the test for "en" on
    text without Hangul: for text with Hangul every language gives the same
    run, and for any text two languages other than "en" give the same
    run. *)
Theorem language_only_gates_english `{C : Collaborators}
    (text l1 l2 : str) (w : world) :
  _is_korean text = true \/ (l1 <> u "en" /\ l2 <> u "en") ->
  _analyze_sentiment text l1 w = _analyze_sentiment text l2 w.
Proof.
  intros H.
  assert (Ha : _is_korean text || negb (str_eqb l1 (u "en"))
               = _is_korean text || negb (str_eqb l2 (u "en"))).
  { destruct H as [-> | [H1 H2]]; [reflexivity|].
    unfold str_eqb. rewrite !bool_decide_eq_false_2 by assumption.
    reflexivity. }
  unfold _analyze_sentiment, analyze_body, translation_stage. cbv zeta.
  rewrite Ha. reflexivity.
Qed.

Lemma language_only_gates_english_witness :
  @_analyze_sentiment demo (u "기쁨") (u "en") initial_world
  = @_analyze_sentiment demo (u "기쁨") (u "ko") initial_world.
Proof.
  apply (language_only_gates_english (C := demo)). left. reflexivity.
Defined.

(** X11. One analysis calls each collaborator at most once, the classifier
    after the translator, and keeps the log it found: the new entries
    (most recent first) are nothing, the translation call, a classifier
    call, or a classifier call on top of the translation call; for an
    invalid text there is none. *)
Theorem analysis_calls `{C : Collaborators}
    (text language : str) (w : world) :
  exists new,
    w_calls (_analyze_sentiment text language w).2 = new ++ w_calls w
    /\ (new = [] \/ new = [CallTranslate text]
        \/ (exists t, new = [CallTextBlob t])
        \/ (exists t, new = [CallTextBlob t; CallTranslate text]))
    /\ (_is_valid_text text = false -> new = []).
Proof.
  destruct (_is_valid_text text) eqn:Hv.
  - rewrite (analyze_valid_run text language w Hv). cbn [snd].
    destruct (analyze_body_calls text language w) as (c & a & Hw & _).
    cbv zeta in Hw. rewrite Hw. cbn [w_calls].
    eexists. split; [rewrite app_assoc; reflexivity|].
    split; [|discriminate].
    destruct c, a; cbn [app]; eauto.
  - rewrite (invalid_result_run text language w Hv). cbn [snd].
    exists []. split; [reflexivity|]. split; [left|]; reflexivity.
Qed.

(** ** Labels and polarity *)

Module BandFacts.

#[local] Open Scope Z_scope.

Lemma Prim2SF_threshold :
  Prim2SF 0.03%float = S754_finite false 8646911284551352 (-58).
Proof. vm_compute. reflexivity. Qed.

Lemma Prim2SF_minus_threshold :
  Prim2SF (-0.03)%float = S754_finite true 8646911284551352 (-58).
Proof. vm_compute. reflexivity. Qed.

Lemma digits2_pos_lower (m : positive) :
  2 ^ (Z.pos (digits2_pos m) - 1) <= Z.pos m.
Proof.
  induction m as [m IH | m IH |]; simpl digits2_pos.
  - rewrite Pos2Z.inj_succ.
    replace (Z.succ (Z.pos (digits2_pos m)) - 1)
      with (Z.succ (Z.pos (digits2_pos m) - 1)) by lia.
    rewrite Z.pow_succ_r by lia. lia.
  - rewrite Pos2Z.inj_succ.
    replace (Z.succ (Z.pos (digits2_pos m)) - 1)
      with (Z.succ (Z.pos (digits2_pos m) - 1)) by lia.
    rewrite Z.pow_succ_r by lia. lia.
  - reflexivity.
Qed.

(** A valid mantissa above the subnormal range has 53 bits. *)
Lemma valid_mantissa_normal (s : bool) (m : positive) (e : Z) :
  valid_binary (S754_finite s m e) = true -> -1074 < e ->
  4503599627370496 <= Z.pos m.
Proof.
  unfold valid_binary, bounded, canonical_mantissa, fexp, emin.
  intros H He. apply andb_prop in H as [H _]. apply Z.eqb_eq in H.
  pose proof (digits2_pos_lower m) as Hd.
  assert (Z.pos (digits2_pos m) = 53) as Heq
    by (unfold prec, emax in H; lia).
  rewrite Heq in Hd. exact Hd.
Qed.

Lemma round_half_even_lower (num den b : Z) :
  0 <= num -> 0 < den -> (2 * b - 1) * den < 2 * num ->
  b <= round_half_even num den.
Proof.
  intros Hn Hd Hb. unfold round_half_even.
  pose proof (Z.div_mod num den ltac:(lia)) as Hdm.
  pose proof (Z.mod_pos_bound num den Hd) as Hr.
  destruct (Z.compare_spec (2 * (num mod den)) den) as [He | Hl | Hg].
  - destruct (Z.even (num / den)); nia.
  - nia.
  - nia.
Qed.

Lemma pow2_le_57 (e : Z) : -57 <= e -> e < 0 ->
  2 ^ (- e) <= 144115188075855872.
Proof.
  intros H1 H2. change 144115188075855872 with (2 ^ 57).
  apply Z.pow_le_mono_r; lia.
Qed.

Lemma pow2_ge_59 (e : Z) : e < -58 ->
  576460752303423488 <= 2 ^ (- e).
Proof.
  intros H. change 576460752303423488 with (2 ^ 59).
  apply Z.pow_le_mono_r; lia.
Qed.

Lemma pow2_58 : 2 ^ 58 = 288230376151711744.
Proof. reflexivity. Qed.

(** Above the threshold: at least 300 ten-thousandths. *)
Lemma scaled_above (x : float) (s : bool) (m : positive) (e : Z) :
  Prim2SF x = S754_finite s m e -> in_unit x ->
  (0.03 <? x)%float = true ->
  s = false /\ 300 <= scaled_decimal 4 m e <= 10000.
Proof.
  intros Hx Hu Hlt.
  pose proof (scaled_decimal_unit x s m e 4 Hx Hu ltac:(lia)) as Hn.
  change (10 ^ 4) with 10000 in Hn.
  destruct (unit_magnitude x s m e Hx Hu) as [He Hm].
  pose proof (Prim2SF_valid x) as Hv. rewrite Hx in Hv.
  rewrite ltb_spec, Hx, Prim2SF_threshold in Hlt.
  unfold SFltb, SFcompare in Hlt.
  change (Pos.compare_cont Eq) with Pos.compare in Hlt.
  destruct s; [discriminate Hlt|]. split; [reflexivity|].
  split; [|lia].
  unfold scaled_decimal. destruct (Z.leb_spec 0 e) as [H0 | _]; [lia|].
  change (10 ^ 4) with 10000.
  assert (0 < 2 ^ (- e)) by (apply Z.pow_pos_nonneg; lia).
  apply round_half_even_lower; [lia | lia |].
  destruct (Z.compare_spec (-58) e) as [Heq | Hl | Hg]; [| |discriminate Hlt].
  - subst e. change (2 ^ (- (-58))) with 288230376151711744 in *.
    destruct (Pos.compare_spec 8646911284551352 m) as [Hc | Hc | Hc];
      try discriminate Hlt.
    apply Pos2Z.pos_lt_pos in Hc. lia.
  - pose proof (valid_mantissa_normal false m e Hv ltac:(lia)).
    pose proof (pow2_le_57 e ltac:(lia) He). lia.
Qed.

(** Below the negative threshold: at least 300 ten-thousandths, negated. *)
Lemma scaled_below (x : float) (s : bool) (m : positive) (e : Z) :
  Prim2SF x = S754_finite s m e -> in_unit x ->
  (x <? -0.03)%float = true ->
  s = true /\ 300 <= scaled_decimal 4 m e <= 10000.
Proof.
  intros Hx Hu Hlt.
  pose proof (scaled_decimal_unit x s m e 4 Hx Hu ltac:(lia)) as Hn.
  change (10 ^ 4) with 10000 in Hn.
  destruct (unit_magnitude x s m e Hx Hu) as [He Hm].
  pose proof (Prim2SF_valid x) as Hv. rewrite Hx in Hv.
  rewrite ltb_spec, Hx, Prim2SF_minus_threshold in Hlt.
  unfold SFltb, SFcompare in Hlt.
  change (Pos.compare_cont Eq) with Pos.compare in Hlt.
  destruct s; [|discriminate Hlt]. split; [reflexivity|].
  split; [|lia].
  unfold scaled_decimal. destruct (Z.leb_spec 0 e) as [H0 | _]; [lia|].
  change (10 ^ 4) with 10000.
  assert (0 < 2 ^ (- e)) by (apply Z.pow_pos_nonneg; lia).
  apply round_half_even_lower; [lia | lia |].
  destruct (Z.compare_spec e (-58)) as [Heq | Hl | Hg]; [|discriminate Hlt|].
  - subst e. change (2 ^ (- (-58))) with 288230376151711744 in *.
    destruct (Pos.compare_spec m 8646911284551352) as [Hc | Hc | Hc];
      cbn [CompOpp] in Hlt; try discriminate Hlt.
    apply Pos2Z.pos_lt_pos in Hc. lia.
  - pose proof (valid_mantissa_normal true m e Hv ltac:(lia)).
    pose proof (pow2_le_57 e ltac:(lia) He). lia.
Qed.

(** Between the thresholds: at most 300 ten-thousandths. *)
Lemma scaled_between (x : float) (s : bool) (m : positive) (e : Z) :
  Prim2SF x = S754_finite s m e -> in_unit x ->
  (0.03 <? x)%float = false -> (x <? -0.03)%float = false ->
  0 <= scaled_decimal 4 m e <= 300.
Proof.
  intros Hx Hu Hhi Hlo.
  destruct (unit_magnitude x s m e Hx Hu) as [He Hm].
  pose proof (Prim2SF_valid x) as Hv. rewrite Hx in Hv.
  apply valid_mantissa_bound in Hv.
  rewrite ltb_spec, Hx in Hhi, Hlo.
  rewrite Prim2SF_threshold in Hhi. rewrite Prim2SF_minus_threshold in Hlo.
  unfold SFltb, SFcompare in Hhi, Hlo.
  change (Pos.compare_cont Eq) with Pos.compare in Hhi, Hlo.
  unfold scaled_decimal. destruct (Z.leb_spec 0 e) as [H0 | _]; [lia|].
  change (10 ^ 4) with 10000.
  assert (0 < 2 ^ (- e)) by (apply Z.pow_pos_nonneg; lia).
  apply round_half_even_bounds; [lia | lia |].
  assert (e < -58 \/ (e = -58 /\ Z.pos m <= 8646911284551352)) as Hcase.
  { destruct s.
    - destruct (Z.compare_spec e (-58)) as [Heq | Hl | Hg];
        [right | left; lia | discriminate Hlo].
      split; [exact Heq|]. subst e.
      destruct (Pos.compare_spec m 8646911284551352) as [Hc | Hc | Hc];
        cbn [CompOpp] in Hlo; try discriminate Hlo.
      + subst m. apply Z.le_refl.
      + apply Pos2Z.pos_le_pos, Pos.lt_le_incl, Hc.
    - destruct (Z.compare_spec (-58) e) as [Heq | Hl | Hg];
        [right | discriminate Hhi | left; lia].
      split; [lia|]. subst e.
      destruct (Pos.compare_spec 8646911284551352 m) as [Hc | Hc | Hc];
        try discriminate Hhi.
      + subst m. apply Z.le_refl.
      + apply Pos2Z.pos_le_pos, Pos.lt_le_incl, Hc. }
  destruct Hcase as [Hl | [-> Hm']].
  - pose proof (pow2_ge_59 e Hl). lia.
  - change (2 ^ (- (-58))) with 288230376151711744 in *. lia.
Qed.

Lemma band_check_all :
  forallb (fun n => band_check false n && band_check true n)
    (seq 0 (Z.to_nat 10001)) = true.
Proof. vm_compute. reflexivity. Qed.

Lemma band_check_range (s : bool) (n : Z) :
  0 <= n <= 10000 -> band_check s (Z.to_nat n) = true.
Proof.
  intros Hn. pose proof band_check_all as Hall.
  rewrite forallb_forall in Hall.
  assert (In (Z.to_nat n) (seq 0 (Z.to_nat 10001))) as Hin
    by (apply in_seq; lia).
  apply Hall in Hin. apply andb_prop in Hin as [Hf Ht].
  destruct s; assumption.
Qed.

Lemma round_above (x : float) :
  in_unit x -> (0.03 <? x)%float = true ->
  (0.03 <=? py_round x 4)%float = true.
Proof.
  intros Hu Hlt. unfold py_round.
  destruct (Prim2SF x) as [s | s | | s m e] eqn:Hx.
  - rewrite ltb_spec, Hx, Prim2SF_threshold in Hlt. discriminate Hlt.
  - apply ltb_leb. exact Hlt.
  - apply ltb_leb. exact Hlt.
  - destruct (scaled_above x s m e Hx Hu Hlt) as [-> Hn].
    pose proof (band_check_range false (scaled_decimal 4 m e) ltac:(lia)) as Hc.
    unfold band_check in Hc. cbv zeta in Hc.
    rewrite Z2Nat.id in Hc by lia.
    apply andb_prop in Hc as [Hc _].
    destruct (Nat.leb_spec 300 (Z.to_nat (scaled_decimal 4 m e)));
      [exact Hc | lia].
Qed.

Lemma round_below (x : float) :
  in_unit x -> (x <? -0.03)%float = true ->
  (py_round x 4 <=? -0.03)%float = true.
Proof.
  intros Hu Hlt. unfold py_round.
  destruct (Prim2SF x) as [s | s | | s m e] eqn:Hx.
  - rewrite ltb_spec, Hx, Prim2SF_minus_threshold in Hlt.
    destruct s; discriminate Hlt.
  - apply ltb_leb. exact Hlt.
  - apply ltb_leb. exact Hlt.
  - destruct (scaled_below x s m e Hx Hu Hlt) as [-> Hn].
    pose proof (band_check_range true (scaled_decimal 4 m e) ltac:(lia)) as Hc.
    unfold band_check in Hc. cbv zeta in Hc.
    rewrite Z2Nat.id in Hc by lia.
    apply andb_prop in Hc as [Hc _].
    destruct (Nat.leb_spec 300 (Z.to_nat (scaled_decimal 4 m e)));
      [exact Hc | lia].
Qed.

Lemma round_between (x : float) :
  in_unit x -> (0.03 <? x)%float = false -> (x <? -0.03)%float = false ->
  (-0.03 <=? py_round x 4)%float = true
  /\ (py_round x 4 <=? 0.03)%float = true.
Proof.
  intros Hu Hhi Hlo. unfold py_round.
  destruct (Prim2SF x) as [s | s | | s m e] eqn:Hx.
  - rewrite <- (SF2Prim_Prim2SF x), Hx. destruct s; split; reflexivity.
  - destruct Hu as [H1 H2]. rewrite leb_spec, Hx in H1, H2.
    rewrite Prim2SF_minus_one in H1. rewrite Prim2SF_one in H2.
    destruct s; [discriminate H1 | discriminate H2].
  - destruct Hu as [H1 _]. rewrite leb_spec, Hx in H1.
    rewrite Prim2SF_minus_one in H1. discriminate H1.
  - pose proof (scaled_between x s m e Hx Hu Hhi Hlo) as Hn.
    pose proof (band_check_range s (scaled_decimal 4 m e) ltac:(lia)) as Hc.
    unfold band_check in Hc. cbv zeta in Hc.
    rewrite Z2Nat.id in Hc by lia.
    apply andb_prop in Hc as [_ Hc].
    destruct (Nat.leb_spec (Z.to_nat (scaled_decimal 4 m e)) 300);
      [|lia].
    apply andb_prop in Hc. exact Hc.
Qed.

End BandFacts.

Import BandFacts.

(** X12. Label and reported polarity agree across the rounding: a Positive
    result has polarity at least 0.03, a Negative one at most -0.03, and a
    Neutral one a polarity between -0.03 and 0.03. *)
Theorem label_agrees_with_polarity `{C : Collaborators}
    (text language : str) (w : world) (r : SentimentResult) :
  (_analyze_sentiment text language w).1 = Return r ->
  (label r = POSITIVE -> (0.03 <=? polarity r)%float = true)
  /\ (label r = NEGATIVE -> (polarity r <=? -0.03)%float = true)
  /\ (label r = NEUTRAL ->
      (-0.03 <=? polarity r)%float = true
      /\ (polarity r <=? 0.03)%float = true).
Proof.
  intros H. pose proof labels_distinct as (D1 & D2 & D3).
  destruct (_is_valid_text text) eqn:Hv.
  - destruct (analyze_valid_inv text language w r Hv H)
      as (l & w' & Hb & -> & _).
    pose proof (analyze_body_inv text language w w' l Hb)
      as (_ & _ & _ & _ & _ & Hfin & _).
    assert (in_unit (final l)) as Hu by (rewrite Hfin; apply clamp_in_unit).
    unfold result_of, label_of. cbv beta iota delta [label polarity].
    destruct (0.03 <? final l)%float eqn:Hhi.
    + split; [intros _; apply round_above; assumption|].
      split; intros Hl; congruence.
    + destruct (final l <? -0.03)%float eqn:Hlo.
      * split; [intros Hl; congruence|].
        split; [intros _; apply round_below; assumption|].
        intros Hl; congruence.
      * split; [intros Hl; congruence|]. split; [intros Hl; congruence|].
        intros _. apply round_between; assumption.
  - rewrite (invalid_result_run text language w Hv) in H. injection H as <-.
    unfold invalid_result. cbv beta iota delta [label polarity].
    split; [intros Hl; congruence|]. split; [intros Hl; congruence|].
    intros _. split; reflexivity.
Qed.

Lemma label_agrees_with_polarity_witness :
  exists r,
    (@_analyze_sentiment demo (u "good news") (u "en") initial_world).1
    = Return r
    /\ label r = POSITIVE /\ (0.03 <=? polarity r)%float = true.
Proof.
  eexists. split; [vm_compute; reflexivity|].
  split; [vm_compute; reflexivity|].
  lazymatch goal with
  | |- (_ <=? polarity ?R)%float = true =>
      refine (proj1 (label_agrees_with_polarity (C := demo) (u "good news")
                       (u "en") initial_world R _) _)
  end.
  - vm_compute. reflexivity.
  - vm_compute. reflexivity.
Defined.

(** ** The keyword bonus and the summarizer *)

Lemma size_meet (l : list str) (X : gset str) :
  size ((list_to_set l : gset str) ∩ X)
  = length (filter (fun t => t ∈ X) (remove_dups l)).
Proof.
  rewrite <- (size_list_to_set (C := gset str))
    by (apply NoDup_filter, NoDup_remove_dups).
  f_equal. apply set_eq. intros x.
  rewrite elem_of_intersection, !elem_of_list_to_set, list_elem_of_filter,
    elem_of_remove_dups.
  tauto.
Qed.

Lemma disjoint_filters (l : list str) (X Y : gset str) :
  X ∩ Y = ∅ ->
  (length (filter (fun t => t ∈ X) l) + length (filter (fun t => t ∈ Y) l)
   <= length l)%nat.
Proof.
  intros Hdis. induction l as [| x l IH]; [reflexivity|].
  rewrite !filter_cons.
  destruct (decide (x ∈ X)) as [Hx |], (decide (x ∈ Y)) as [Hy |];
    cbn [length]; try lia.
  exfalso. assert (H : x ∈ X ∩ Y) by (apply elem_of_intersection; tauto).
  rewrite Hdis in H. exact (not_elem_of_empty x H).
Qed.

Lemma remove_dups_shorter (l : list str) :
  (length (remove_dups l) <= length l)%nat.
Proof.
  induction l as [| x l IH]; [reflexivity|].
  cbn [remove_dups]. destruct (decide_rel elem_of x l); cbn [length]; lia.
Qed.

(** X13. A repeated token counts once: each count of the keyword bonus is
    the number of distinct tokens of the lowercased text that are in its
    lexicon. With disjoint lexicons the two counts together are at most the
    number of distinct tokens, which is at most the number of tokens. *)
Theorem en_keyword_hits_bounded `{C : Collaborators}
    (g : globals) (en_text : str) :
  g_EN_POSITIVE g ∩ g_EN_NEGATIVE g = ∅ ->
  let tokens := remove_dups (split (lower en_text)) in
  let '(_, en_pos, en_neg) := en_keyword_boost g en_text in
  en_pos = Z.of_nat (length (filter (fun t => t ∈ g_EN_POSITIVE g) tokens))
  /\ en_neg
     = Z.of_nat (length (filter (fun t => t ∈ g_EN_NEGATIVE g) tokens))
  /\ (en_pos + en_neg <= Z.of_nat (length tokens))%Z
  /\ (length tokens <= length (split (lower en_text)))%nat.
Proof.
  intros Hdis. unfold en_keyword_boost. cbv zeta.
  rewrite !size_meet.
  split; [reflexivity|]. split; [reflexivity|].
  split; [|apply remove_dups_shorter].
  pose proof (disjoint_filters (remove_dups (split (lower en_text)))
                _ _ Hdis).
  lia.
Qed.

Lemma en_keyword_hits_bounded_witness :
  let '(_, en_pos, en_neg) :=
    @en_keyword_boost demo module_globals (u "Good good news, bad Bad times") in
  en_pos = 1%Z /\ en_neg = 1%Z
  /\ length (split (ascii_lower (u "Good good news, bad Bad times"))) = 6%nat.
Proof.
  assert (Hdis : EN_POSITIVE ∩ EN_NEGATIVE = ∅)
    by (apply (bool_decide_unpack _); vm_compute; exact I).
  pose proof (en_keyword_hits_bounded (C := demo) module_globals
                (u "Good good news, bad Bad times") Hdis) as H.
  cbv zeta in H. revert H.
  destruct (@en_keyword_boost demo module_globals
              (u "Good good news, bad Bad times")) as [[b p] n].
  intros (Hp & Hn & _). rewrite Hp, Hn.
  split; [vm_compute; reflexivity|].
  split; vm_compute; reflexivity.
Defined.

Lemma summarize_text_returns `{C : Collaborators}
    (text : str) (n : Z) (lang : str) (w : world) :
  exists s, (_summarize_text text n lang w).1 = Return s /\ s <> [].
Proof.
  unfold _summarize_text.
  replace (u "(본문 없음)") with (40%N :: u "본문 없음)")
    by (vm_compute; reflexivity).
  replace (u "(요약 생성 실패)") with (40%N :: u "요약 생성 실패)")
    by (vm_compute; reflexivity).
  replace (u "(요약 중 오류: ") with (40%N :: u "요약 중 오류: ")
    by (vm_compute; reflexivity).
  destruct (negb (truthy text) || (Z.of_nat (length (split text)) <? 10)%Z).
  - unfold mret, py_ret. cbn [fst]. eexists. split; [reflexivity|].
    destruct text; cbn [truthy]; discriminate.
  - unfold mbind, py_bind, global, try_except, external, mret, py_ret.
    cbv beta iota.
    destruct (LsaSummarizer_run _ text n) as [summary | e]; cbn [fst].
    + eexists. split; [reflexivity|].
      destruct (join (u " ") summary); cbn [truthy]; discriminate.
    + eexists. split; [reflexivity|]. cbn [app]. discriminate.
Qed.

(** X14. [_summarize_text] never raises and never returns the empty string:
    whatever the summarizer does, the caller gets the text itself, the
    sentences the summarizer returned joined by spaces, or one of the three
    placeholders "(본문 없음)", "(요약 생성 실패)", "(요약 중 오류: ...)" with
    the message of the exception. *)
Theorem summarize_total `{C : Collaborators}
    (text : str) (n : Z) (lang : str) (w : world) :
  exists s,
    (_summarize_text text n lang w).1 = Return s
    /\ s <> []
    /\ (s = text
        \/ s = u "(본문 없음)"
        \/ s = u "(요약 생성 실패)"
        \/ (exists sumy_lang e,
              LsaSummarizer_run sumy_lang text n = Raise e
              /\ s = u "(요약 중 오류: " ++ exn_str e ++ u ")")
        \/ (exists sumy_lang sentences,
              LsaSummarizer_run sumy_lang text n = Return sentences
              /\ s = join (u " ") sentences)).
Proof.
  destruct (summarize_text_returns text n lang w) as (s & Hs & Hne).
  exists s. split; [exact Hs|]. split; [exact Hne|].
  revert Hs. unfold _summarize_text.
  destruct (negb (truthy text) || (Z.of_nat (length (split text)) <? 10)%Z).
  - unfold mret, py_ret. cbn [fst]. intros H. injection H as <-.
    destruct (truthy text); [left | right; left]; reflexivity.
  - unfold mbind, py_bind, global, try_except, external, mret, py_ret.
    cbv beta iota.
    destruct (LsaSummarizer_run _ text n) as [summary | e] eqn:Hrun;
      cbn [fst]; intros H; injection H as <-.
    + destruct (truthy (join (u " ") summary)).
      * do 4 right. eexists _, summary. split; [exact Hrun | reflexivity].
      * right; right; left. reflexivity.
    + do 3 right. left. eexists _, e. split; [exact Hrun | reflexivity].
Qed.

(** X15. A text of fewer than ten whitespace-separated words is returned
    unchanged, the empty text as "(본문 없음)"; in both cases the summarizer
    is not called. *)
Theorem summarize_short_text `{C : Collaborators}
    (text : str) (n : Z) (lang : str) (w : world) :
  (length (split text) < 10)%nat ->
  _summarize_text text n lang w
  = (Return (if truthy text then text else u "(본문 없음)"), w).
Proof.
  intros H. unfold _summarize_text.
  destruct (Z.ltb_spec (Z.of_nat (length (split text))) 10) as [_ | Hge];
    [|lia].
  rewrite orb_true_r. reflexivity.
Qed.

Lemma summarize_short_text_witness :
  @_summarize_text demo (u "This is short.") 3 (u "en") initial_world
  = (Return (u "This is short."), initial_world).
Proof.
  apply (summarize_short_text (C := demo) (u "This is short.") 3 (u "en")
           initial_world).
  vm_compute. lia.
Defined.

Lemma sumy_lang_lookup (lang : str) :
  default (u "english") (SUMY_LANG_MAP !! lang)
  = if decide (lang = u "ja") then u "japanese"
    else if decide (lang = u "de") then u "german"
    else if decide (lang = u "fr") then u "french"
    else if decide (lang = u "es") then u "spanish"
    else u "english".
Proof.
  unfold SUMY_LANG_MAP. cbn [list_to_map foldr fst snd].
  assert (D : u "en" <> u "ko" /\ u "en" <> u "ja" /\ u "en" <> u "de"
              /\ u "en" <> u "fr" /\ u "en" <> u "es" /\ u "ko" <> u "ja"
              /\ u "ko" <> u "de" /\ u "ko" <> u "fr" /\ u "ko" <> u "es"
              /\ u "ja" <> u "de" /\ u "ja" <> u "fr" /\ u "ja" <> u "es"
              /\ u "de" <> u "fr" /\ u "de" <> u "es" /\ u "fr" <> u "es").
  { repeat split; intros H; vm_compute in H; discriminate H. }
  destruct D as (? & ? & ? & ? & ? & ? & ? & ? & ? & ? & ? & ? & ? & ? & ?).
  rewrite !lookup_insert, lookup_empty.
  repeat case_decide; subst; try reflexivity; try contradiction;
    exfalso; eauto.
Qed.

(** X16. With the language table of the module, the summarizer is called
    at most once, on the text and sentence count given, and always for one
    of five languages: Japanese, German, French or Spanish for their codes,
    English for every other code ("en", "ko", and any unknown one). *)
Theorem summarize_language `{C : Collaborators}
    (text : str) (n : Z) (lang : str) (w : world) :
  w_globals w = module_globals ->
  exists new,
    w_calls (_summarize_text text n lang w).2 = new ++ w_calls w
    /\ (new = []
        \/ new = [CallSumy
                    (if decide (lang = u "ja") then u "japanese"
                     else if decide (lang = u "de") then u "german"
                     else if decide (lang = u "fr") then u "french"
                     else if decide (lang = u "es") then u "spanish"
                     else u "english") text n])
    /\ (new = [] <-> (length (split text) < 10)%nat).
Proof.
  intros Hg. unfold _summarize_text.
  destruct (Z.ltb_spec (Z.of_nat (length (split text))) 10) as [Hlt | Hge].
  - rewrite orb_true_r. exists []. split; [reflexivity|].
    split; [left; reflexivity|]. split; [lia | reflexivity].
  - rewrite orb_false_r.
    destruct (truthy text) eqn:Ht; cbn [negb].
    + unfold mbind, py_bind, global, try_except, external, mret, py_ret.
      cbv beta iota. rewrite Hg.
      change (g_SUMY_LANG_MAP module_globals) with SUMY_LANG_MAP.
      rewrite sumy_lang_lookup.
      eexists [_]. split.
      { destruct (LsaSummarizer_run _ text n); reflexivity. }
      split; [right; reflexivity|]. split; [discriminate | lia].
    + destruct text; [|discriminate Ht]. cbn [split split_aux length] in Hge.
      lia.
Qed.

Lemma summarize_language_witness :
  exists new,
    w_calls (@_summarize_text demo
               (u "one two three four five six seven eight nine ten") 2
               (u "ko") initial_world).2 = new ++ []
    /\ new = [CallSumy (u "english")
                (u "one two three four five six seven eight nine ten") 2].
Proof.
  destruct (summarize_language (C := demo)
              (u "one two three four five six seven eight nine ten") 2
              (u "ko") initial_world eq_refl) as (new & Hc & Hn & Hiff).
  exists new. split; [exact Hc|].
  destruct Hn as [Hn | Hn].
  - apply Hiff in Hn. vm_compute in Hn. lia.
  - rewrite Hn. f_equal.
Defined.

(** ** The articles of a news response *)

Section NewsArticles.

Context {C : Collaborators}.

Lemma get_news_step_built (language : str) (n : Z) (a : raw_article)
    (counts counts' : gmap str Z) (results results' : list ArticleResult)
    (w w' w0 : world) :
  get_news_step language n a counts results w
  = (Return (counts', results'), w') ->
  w_globals w = w_globals w0 ->
  exists art, results' = results ++ [art] /\ built_from w0 language n a art.
Proof.
  unfold get_news_step. cbv zeta.
  set (ttl := or_else (get (a_title a)) _).
  set (dsc := or_else (get (a_description a)) _).
  set (cnt := or_else (get (a_content a)) _).
  set (analysis := ttl ++ _).
  assert (Ha : analysis = analysis_text ttl dsc) by reflexivity.
  clearbody analysis. subst analysis.
  intros H Hg. unfold mbind at 1, py_bind at 1 in H.
  pose proof (preserves_analyze (analysis_text ttl dsc) language w) as Hg1.
  destruct (_analyze_sentiment (analysis_text ttl dsc) language w)
    as [[sent | e] w1] eqn:Hs; [|discriminate H].
  cbn [snd] in Hg1.
  assert (Hs0 : (_analyze_sentiment (analysis_text ttl dsc) language w0).1
                = Return sent).
  { rewrite <- (steady_outcome _ w w0 (steady_analyze _ _) Hg), Hs.
    reflexivity. }
  unfold mbind at 1, py_bind at 1 in H.
  match type of H with
  | context [match ?m w1 with _ => _ end] =>
      destruct (m w1) as [o w2] eqn:Hsrc
  end.
  destruct o as [src | e]; [|discriminate H].
  assert (Hsource : src = match a_source a with
                          | SourceMissing | SourceObj Missing => Some []
                          | SourceObj (Str s) => Some s
                          | SourceNull | SourceObj Null => None
                          end
                    /\ w2 = w1).
  { destruct (a_source a) as [| | [| | s0]];
      unfold mret, py_ret, raise in Hsrc; try discriminate Hsrc;
      injection Hsrc as <- <-; split; reflexivity. }
  destruct Hsource as [Hsource ->].
  unfold mbind at 1, py_bind at 1 in H.
  destruct (_summarize_text cnt n language w1) as [[summ | e] w3] eqn:Hsum;
    [|discriminate H].
  assert (Hsum0 : (_summarize_text cnt n language w0).1 = Return summ).
  { rewrite <- (steady_outcome _ w1 w0 (steady_summarize _ _ _)), Hsum;
      [reflexivity|].
    rewrite Hg1. exact Hg. }
  destruct (a_url a) as [| | url0] eqn:Hurl; destruct src as [src |];
    try discriminate H;
    unfold mret, py_ret in H; injection H as <- <- <-;
    (eexists; split; [reflexivity|]);
    unfold built_from;
    cbv beta iota delta [title description content url source published
                         image_url sentiment summary];
    fold ttl dsc cnt;
    (split; [reflexivity|]); (split; [reflexivity|]);
    (split; [reflexivity|]); (split; [rewrite Hurl; reflexivity|]);
    (split; [exact Hsource|]); (split; [reflexivity|]);
    (split; [reflexivity|]);
    (split; [exact Hs0 | exact Hsum0]).
Qed.

Lemma get_news_loop_built (language : str) (n : Z) (raw : list raw_article)
    (w0 : world) :
  forall counts results counts' results' w w',
    get_news_loop language n raw counts results w
    = (Return (counts', results'), w') ->
    w_globals w = w_globals w0 ->
    exists arts, results' = results ++ arts
      /\ Forall2 (built_from w0 language n) raw arts.
Proof.
  induction raw as [| a raw IH];
    intros counts results counts' results' w w' H Hg.
  - cbn [get_news_loop] in H. unfold mret, py_ret in H.
    injection H as <- <- <-. exists []. rewrite app_nil_r.
    split; [reflexivity | constructor].
  - cbn [get_news_loop] in H. unfold mbind at 1, py_bind at 1 in H.
    pose proof (preserves_step language n a counts results w) as Hg1.
    destruct (get_news_step language n a counts results w)
      as [[[c1 r1] | e] w1] eqn:Hstep; [|discriminate H].
    cbn [snd] in Hg1.
    apply (get_news_step_built _ _ _ _ _ _ _ _ _ w0) in Hstep
      as (art & -> & Hb); [|exact Hg].
    apply IH in H as (arts & -> & Hall); [|rewrite Hg1; exact Hg].
    exists (art :: arts). rewrite <- app_assoc.
    split; [reflexivity | constructor; assumption].
Qed.

Lemma get_news_built (k q language : str) (n s : Z) (w : world)
    (resp : NewsResponse) :
  (get_news k q language n s w).1 = Return resp ->
  exists raw,
    (_fetch_news k q language n w).1 = Return raw
    /\ Forall2 (built_from w language s) raw (articles resp)
    /\ total resp = Z.of_nat (length raw)
    /\ (raw = [] -> sentiment_summary resp = ∅).
Proof.
  unfold get_news. unfold mbind at 1, py_bind at 1. unfold try_except.
  pose proof (preserves_fetch k q language n w) as Hg.
  destruct (_fetch_news k q language n w) as [[raw | e] w1]; [|discriminate].
  cbn [snd] in Hg.
  destruct raw as [| a raw].
  - unfold mret, py_ret. intros H. injection H as <-. exists [].
    split; [reflexivity|]. split; [constructor|]. split; reflexivity.
  - unfold mbind at 1, py_bind at 1.
    destruct (get_news_loop language s (a :: raw) initial_counts [] w1)
      as [[[counts results] | e] w2] eqn:Hloop; [|discriminate].
    unfold mret, py_ret. intros H. injection H as <-.
    apply (get_news_loop_built _ _ _ w) in Hloop as (arts & -> & Hall);
      [|exact Hg].
    exists (a :: raw). split; [reflexivity|].
    cbn [articles total app]. split; [exact Hall|].
    split; [|discriminate].
    apply Forall2_length in Hall. rewrite Hall. reflexivity.
Qed.

End NewsArticles.



Lemma marker_in_analysis (m title desc : str) :
  m ∈ invalid_markers -> occurs_in m title ->
  _is_valid_text (analysis_text title desc) = false.
Proof.
  intros Hm (a & b & ->). unfold _is_valid_text.
  destruct (negb _ || negb _); [reflexivity|].
  apply negb_false_iff, existsb_exists. exists m. split.
  - apply list_elem_of_In. exact Hm.
  - apply contains_spec. unfold analysis_text.
    exists a, (b ++ (if truthy desc && _is_valid_text desc
                     then u ". " ++ desc else [])).
    rewrite <- !app_assoc. reflexivity.
Qed.

(** X18. An article whose title contains one of the markers "[removed]",
    "[Removed]", "(제목 없음)" gets the fixed neutral result, whatever its
    description says; this is the case of every article the provider sends
    without a title, since its title becomes "(제목 없음)". *)
Theorem marked_title_is_neutral `{C : Collaborators}
    (k q language : str) (n s : Z) (w : world) (resp : NewsResponse) :
  (get_news k q language n s w).1 = Return resp ->
  Forall (fun art =>
            (exists m, m ∈ invalid_markers /\ occurs_in m (title art)) ->
            sentiment art
            = mkSentimentResult NEUTRAL 0%float (u "(분석 불가)") (u "none"))
    (articles resp)
  /\ exists raw,
       (_fetch_news k q language n w).1 = Return raw
       /\ Forall2 (fun a art =>
                     get (a_title a) = None \/ get (a_title a) = Some [] ->
                     title art = u "(제목 없음)"
                     /\ sentiment art
                        = mkSentimentResult NEUTRAL 0%float (u "(분석 불가)")
                            (u "none"))
            raw (articles resp).
Proof.
  intros H. destruct (get_news_built k q language n s w resp H)
    as (raw & Hf & Hall & _).
  assert (Hmark : forall a art, built_from w language s a art ->
            (exists m, m ∈ invalid_markers /\ occurs_in m (title art)) ->
            sentiment art = invalid_result).
  { intros a art (_ & _ & _ & _ & _ & _ & _ & Hs & _) (m & Hm & Ho).
    rewrite (invalid_result_run _ language w
               (marker_in_analysis m _ (description art) Hm Ho)) in Hs.
    injection Hs as <-. reflexivity. }
  split.
  - clear -Hall Hmark.
    induction Hall as [| a art raw arts Hb _ IH]; constructor.
    + exact (Hmark a art Hb).
    + exact IH.
  - exists raw. split; [exact Hf|].
    clear -Hall Hmark.
    induction Hall as [| a art raw arts Hb _ IH]; constructor; [|exact IH].
    intros Ht.
    assert (Htitle : title art = u "(제목 없음)").
    { destruct Hb as (Hti & _). rewrite Hti.
      destruct Ht as [-> | ->]; reflexivity. }
    split; [exact Htitle|].
    apply (Hmark a art Hb). exists (u "(제목 없음)"). split.
    + unfold invalid_markers. do 2 right. left.
    + exists [], []. rewrite Htitle, app_nil_r. reflexivity.
Qed.

Lemma marked_title_is_neutral_witness :
  exists resp,
    (@get_news untitled (u "key") (u "markets") (u "en") 5 3
       initial_world).1 = Return resp
    /\ map (fun art => label (sentiment art)) (articles resp) = [NEUTRAL]
    /\ Forall (fun art =>
                 (exists m, m ∈ invalid_markers /\ occurs_in m (title art)) ->
                 sentiment art
                 = mkSentimentResult NEUTRAL 0%float (u "(분석 불가)")
                     (u "none"))
         (articles resp).
Proof.
  eexists. split; [vm_compute; reflexivity|].
  split; [vm_compute; reflexivity|].
  lazymatch goal with
  | |- Forall _ (articles ?R) =>
      refine (proj1 (marked_title_is_neutral (C := untitled) (u "key")
                       (u "markets") (u "en") 5 3 initial_world R _))
  end.
  vm_compute. reflexivity.
Defined.

(** ** Failures, empty answers and the POST endpoints *)

Lemma fetch_news_world `{C : Collaborators} (k q l : str) (n : Z) (w : world) :
  (_fetch_news k q l n w).2 = logged (CallNewsAPI k q l n) w.
Proof.
  unfold _fetch_news, mbind, py_bind, external.
  destruct (requests_get_json k q l n) as [data | e]; [|reflexivity].
  destruct (negb (field_is (j_status data) (u "ok"))); reflexivity.
Qed.

Lemma field_is_false (f : field) (s : str) :
  f <> Str s -> field_is f s = false.
Proof.
  intros H. destruct f as [| | v]; try reflexivity.
  cbn [field_is]. unfold str_eqb. apply bool_decide_eq_false_2.
  intros ->. apply H. reflexivity.
Qed.

(** X19. Every failure of the fetch becomes an [HTTPException] of status
    502 whose detail is "뉴스 가져오기 실패: " followed by the message: the
    message of the exception when the request raises, the provider's message
    when its status is not "ok" ("알 수 없는 오류" when it sends none).  The
    request to the provider is then the only call made. *)
Theorem news_fetch_failure `{C : Collaborators}
    (k q l : str) (n s : Z) (w : world) :
  (forall e, requests_get_json k q l n = Raise e ->
     get_news k q l n s w
     = (Raise (HTTPException 502 (u "뉴스 가져오기 실패: " ++ exn_str e)),
        logged (CallNewsAPI k q l n) w))
  /\ (forall data, requests_get_json k q l n = Return data ->
        j_status data <> Str (u "ok") ->
        get_news k q l n s w
        = (Raise (HTTPException 502
                    (u "뉴스 가져오기 실패: "
                     ++ match j_message data with
                        | Missing => u "알 수 없는 오류"
                        | Null => u "None"
                        | Str m => m
                        end)),
           logged (CallNewsAPI k q l n) w)).
Proof.
  split.
  - intros e He.
    unfold get_news, try_except, _fetch_news, external, mbind, py_bind.
    rewrite He. reflexivity.
  - intros data Hd Hs.
    unfold get_news, try_except, _fetch_news, external, mbind, py_bind.
    rewrite Hd, (field_is_false _ _ Hs). reflexivity.
Qed.

Lemma news_fetch_failure_witness :
  @get_news failing (u "key") (u "markets") (u "en") 5 3 initial_world
  = (Raise (HTTPException 502 (u "뉴스 가져오기 실패: offline")),
     logged (CallNewsAPI (u "key") (u "markets") (u "en") 5) initial_world)
  /\ @get_news rejecting (u "key") (u "markets") (u "en") 5 3 initial_world
     = (Raise (HTTPException 502 (u "뉴스 가져오기 실패: apiKeyInvalid")),
        logged (CallNewsAPI (u "key") (u "markets") (u "en") 5)
          initial_world).
Proof.
  split.
  - apply (proj1 (news_fetch_failure (C := failing) (u "key") (u "markets")
                    (u "en") 5 3 initial_world) (Exception (u "offline"))).
    reflexivity.
  - apply (proj2 (news_fetch_failure (C := rejecting) (u "key") (u "markets")
                    (u "en") 5 3 initial_world)
             (ProviderJson (Str (u "error")) (Str (u "apiKeyInvalid")) None)).
    + reflexivity.
    + intros H. vm_compute in H. discriminate H.
Defined.

Lemma LABELS_nonempty : LABELS <> ∅.
Proof.
  intros H. assert (Hin : POSITIVE ∈ LABELS) by (apply in_LABELS; tauto).
  rewrite H in Hin. exact (not_elem_of_empty _ Hin).
Qed.

(** X20. A response of [get_news] has no articles exactly when the provider
    sent none, and exactly then its histogram has no keys at all (not three
    zeros) and its total is 0; the request to the provider is then the only
    call made. *)
Theorem empty_news_response `{C : Collaborators}
    (k q l : str) (n s : Z) (w : world) (resp : NewsResponse) :
  (get_news k q l n s w).1 = Return resp ->
  ((_fetch_news k q l n w).1 = Return [] <-> articles resp = [])
  /\ (articles resp = [] <-> sentiment_summary resp = ∅)
  /\ (articles resp = [] <-> total resp = 0%Z)
  /\ (articles resp = [] ->
      (get_news k q l n s w).2 = logged (CallNewsAPI k q l n) w).
Proof.
  pose proof (fetch_news_world k q l n w) as Hw.
  remember (get_news k q l n s w) as run eqn:Hrun.
  unfold get_news in Hrun.
  unfold mbind at 1, py_bind at 1 in Hrun. unfold try_except in Hrun.
  destruct (_fetch_news k q l n w) as [[raw | e] w1];
    [|subst run; discriminate].
  cbn [snd] in Hw. subst w1.
  destruct raw as [| a raw].
  - unfold mret, py_ret in Hrun. subst run. cbn [fst snd].
    intros H. injection H as <-.
    cbn [articles sentiment_summary total]. repeat split; reflexivity.
  - unfold mbind at 1, py_bind at 1 in Hrun.
    destruct (get_news_loop l s (a :: raw) initial_counts []
                (logged (CallNewsAPI k q l n) w))
      as [[[counts results] | e] w2] eqn:Hloop; [|subst run; discriminate].
    unfold mret, py_ret in Hrun. subst run. cbn [fst snd].
    intros H. injection H as <-.
    cbn [articles sentiment_summary total].
    apply get_news_loop_inv in Hloop as [(Hdom & _) Hlen];
      [|exact histogram_initial].
    cbn [length] in Hlen.
    assert (Hne : results <> []) by (intros ->; discriminate Hlen).
    assert (Hc : counts <> ∅).
    { intros ->. rewrite dom_empty_L in Hdom.
      apply LABELS_nonempty. symmetry. exact Hdom. }
    repeat split; intros H; try contradiction; try discriminate H.
    rewrite Hlen in H. lia.
Qed.

Lemma empty_news_response_witness :
  exists resp,
    (@get_news untitled (u "key") (u "markets") (u "en") 5 3
       initial_world).1 = Return resp
    /\ articles resp <> []
    /\ sentiment_summary resp <> ∅.
Proof.
  eexists. split; [vm_compute; reflexivity|].
  lazymatch goal with
  | |- articles ?R <> [] /\ _ =>
      destruct (empty_news_response (C := untitled) (u "key") (u "markets")
                  (u "en") 5 3 initial_world R) as (_ & Hs & _)
  end.
  - vm_compute. reflexivity.
  - assert (Ha : forall x (xs : list ArticleResult), x :: xs <> [])
      by discriminate.
    split; [apply Ha|]. intros H. apply Hs in H. exact (Ha _ _ H).
Defined.

Lemma blank_iff (text : str) :
  truthy (strip text) = false <-> forall c, c ∈ text -> isspace c = true.
Proof.
  split.
  - intros Hs c Hin. destruct (isspace c) eqn:Hc; [reflexivity|].
    assert (Ht : truthy (strip text) = true)
      by (apply strip_truthy; exists c; split; assumption).
    rewrite Ht in Hs. discriminate Hs.
  - intros Hall. destruct (truthy (strip text)) eqn:Hs; [|reflexivity].
    apply strip_truthy in Hs as (c & Hin & Hc).
    rewrite (Hall c Hin) in Hc. discriminate Hc.
Qed.

(** X21. POST /summarize raises only for blank text, and then the
    [HTTPException] of status 400 with nothing called; for every other text
    it returns a summary that is not empty. *)
Theorem summarize_endpoint_cases `{C : Collaborators}
    (text : str) (n : Z) (lang : str) (w : world) :
  match (summarize_endpoint text n lang w).1 with
  | Raise e =>
      e = HTTPException 400 (u "텍스트가 비어 있습니다.")
      /\ (forall c, c ∈ text -> isspace c = true)
      /\ (summarize_endpoint text n lang w).2 = w
  | Return summ =>
      summ <> [] /\ exists c, c ∈ text /\ isspace c = false
  end.
Proof.
  unfold summarize_endpoint.
  destruct (truthy (strip text)) eqn:Hs; cbn [negb].
  - destruct (summarize_text_returns text n lang w) as (summ & -> & Hne).
    split; [exact Hne|]. apply strip_truthy. exact Hs.
  - unfold raise. cbn [fst snd]. split; [reflexivity|].
    split; [apply blank_iff; exact Hs | reflexivity].
Qed.

(** X22. POST /sentiment answers with the [HTTPException] of status 400 and
    without any call exactly when the text is blank (empty or whitespace
    only). *)
Theorem sentiment_endpoint_blank `{C : Collaborators}
    (text language : str) (w : world) :
  (forall c, c ∈ text -> isspace c = true)
  <-> sentiment_endpoint text language w
      = (Raise (HTTPException 400 (u "텍스트가 비어 있습니다.")), w).
Proof.
  rewrite <- blank_iff. unfold sentiment_endpoint.
  destruct (truthy (strip text)) eqn:Hs; cbn [negb].
  - split; [discriminate|]. intros Hrun. exfalso.
    destruct (_is_valid_text text) eqn:Hv.
    + rewrite (analyze_valid_run _ _ _ Hv) in Hrun.
      destruct (analyze_body_cases text language w)
        as [(line & m & c & a & _ & _ & Hr & _)
           | [(e & _ & _ & Hr) | (l & Hr & _)]];
        rewrite Hr in Hrun; cbn [fst snd] in Hrun;
        try discriminate Hrun.
      injection Hrun as _ Hw.
      apply (f_equal (fun x => length (w_calls x))) in Hw.
      cbn [w_calls app length] in Hw. rewrite ?length_app in Hw. lia.
    + rewrite (invalid_result_run _ _ _ Hv) in Hrun. discriminate Hrun.
  - split; reflexivity.
Qed.

(** X23. A result of POST /sentiment is the fixed neutral result (method
    "none") exactly when the text contains one of the three markers: blank
    text never gets that far. *)
Theorem sentiment_endpoint_marker `{C : Collaborators}
    (text language : str) (w : world) (r : SentimentResult) :
  (sentiment_endpoint text language w).1 = Return r ->
  (exists c, c ∈ text /\ isspace c = false)
  /\ (method r = u "none"
      <-> exists m, m ∈ invalid_markers /\ occurs_in m text).
Proof.
  unfold sentiment_endpoint.
  destruct (truthy (strip text)) eqn:Hs; cbn [negb]; [|discriminate].
  intros H. pose proof (proj1 (strip_truthy text) Hs) as Hc.
  split; [exact Hc|].
  assert (Hnone : method r = u "none" <-> _is_valid_text text = false).
  { destruct (_is_valid_text text) eqn:Hv.
    - destruct (valid_result_method text language w r Hv H)
        as (k & t & a & b & c0 & ->).
      destruct (fuse_method_not_none k t a b c0) as [H1 _].
      split; [contradiction | discriminate].
    - rewrite (invalid_result_run text language w Hv) in H.
      injection H as <-. split; reflexivity. }
  rewrite Hnone. clear Hnone. unfold _is_valid_text. rewrite Hs.
  destruct Hc as (c & Hin & _).
  destruct text as [| c0 text]; [apply elem_of_nil in Hin; contradiction|].
  cbn [truthy negb orb]. rewrite negb_false_iff, existsb_exists.
  split.
  - intros (m & Hm & Hcm). exists m. split.
    + apply list_elem_of_In. exact Hm.
    + apply contains_spec. exact Hcm.
  - intros (m & Hm & Ho). exists m. split.
    + apply list_elem_of_In. exact Hm.
    + apply contains_spec. exact Ho.
Qed.

Lemma sentiment_endpoint_marker_witness :
  exists r,
    (@sentiment_endpoint demo (u "Story [removed] by editor") (u "en")
       initial_world).1 = Return r
    /\ method r = u "none".
Proof.
  eexists. split; [vm_compute; reflexivity|].
  lazymatch goal with
  | |- method ?R = _ =>
      apply (proj2 (sentiment_endpoint_marker (C := demo)
                      (u "Story [removed] by editor") (u "en")
                      initial_world R ltac:(vm_compute; reflexivity)))
  end.
  exists (u "[removed]"). split.
  - unfold invalid_markers. left.
  - exists (u "Story "), (u " by editor"). vm_compute. reflexivity.
Defined.

(** X24. [get_news] answers only when every article of the provider can be
    turned into an [ArticleResult]: none has a null url, a null source or a
    source whose name is null.  One such article fails the whole request. *)
Theorem news_needs_url_and_source `{C : Collaborators}
    (k q l : str) (n s : Z) (w : world) (resp : NewsResponse) :
  (get_news k q l n s w).1 = Return resp ->
  exists raw,
    (_fetch_news k q l n w).1 = Return raw
    /\ Forall (fun a => a_url a <> Null /\ a_source a <> SourceNull
                        /\ a_source a <> SourceObj Null) raw.
Proof.
  intros H. destruct (get_news_built k q l n s w resp H)
    as (raw & Hf & Hall & _).
  exists raw. split; [exact Hf|].
  clear -Hall. induction Hall as [| a art raw arts Hb _ IH]; constructor.
  - destruct Hb as (_ & _ & _ & Hurl & Hsrc & _).
    split; [|split]; intros Heq; rewrite Heq in *; discriminate.
  - exact IH.
Qed.

Lemma news_needs_url_and_source_witness :
  exists raw,
    (@_fetch_news demo (u "key") (u "markets") (u "en") 5 initial_world).1
    = Return raw
    /\ Forall (fun a => a_url a <> Null /\ a_source a <> SourceNull
                        /\ a_source a <> SourceObj Null) raw.
Proof.
  eapply (news_needs_url_and_source (C := demo) (u "key") (u "markets")
            (u "en") 5 3 initial_world).
  vm_compute. reflexivity.
Defined.
